(** * Verification of the download orchestration core

    Shallow embedding of [downloader.py] (platform detection, configuration
    validation, yt-dlp command construction, single download, batch
    download and the command-line entry) and of [api.py] (the platform
    helper and the two endpoints), followed by the properties of the
    specification that concern them. *)

From Stdlib Require Import ZArith List String Ascii Bool Arith Lia.
From Stdlib Require Import Permutation DecimalString.
From Stdlib Require DecimalPos DecimalZ.
Import ListNotations.

Local Open Scope string_scope.
Local Open Scope list_scope.

(** String concatenation, kept apart from list concatenation. *)
Local Infix "+++" := String.append (at level 60, right associativity).

(* ================================================================== *)
(** * Python primitives used by the source *)
(* ================================================================== *)

Module Py.

(** Exceptions that are subclasses of [Exception].  Process-level
    interruptions ([KeyboardInterrupt], [SystemExit]) are not
    [Exception]s and are outside this model. *)
Inductive exn : Type :=
| ValueError (msg : string)
| TypeError (msg : string)
| FileNotFoundError (msg : string)
| OSError (msg : string)
| CalledProcessError (msg : string) (stderr : string)
| UnicodeDecodeError (msg : string)
| RuntimeError (msg : string).

(** [str(e)] *)
Definition str_exn (e : exn) : string :=
  match e with
  | ValueError m | TypeError m | FileNotFoundError m | OSError m
  | CalledProcessError m _ | UnicodeDecodeError m | RuntimeError m => m
  end.

(** The outcome of a call: a value, or a raised exception. *)
Inductive result (A : Type) : Type :=
| Returned (a : A)
| Raised (e : exn).
Arguments Returned {A} a.
Arguments Raised {A} e.

(** [str(n)] for an [int]. *)
Definition str_int (n : Z) : string := NilZero.string_of_int (Z.to_int n).

(** [if o: then_(o) else: else_] for an [Optional[str]]: [None] and the
    empty string are false. *)
Definition if_truthy {A : Type} (o : option string) (then_ : string -> A)
  (else_ : A) : A :=
  match o with
  | Some s => if s =? "" then else_ else then_ s
  | None => else_
  end.

(** [s.startswith(p)] *)
Fixpoint startswith (p s : string) : bool :=
  match p with
  | EmptyString => true
  | String a p' =>
      match s with
      | EmptyString => false
      | String b s' => Ascii.eqb a b && startswith p' s'
      end
  end.

(** [s.endswith(c)] for a one-character suffix. *)
Fixpoint endswith_char (c : ascii) (s : string) : bool :=
  match s with
  | EmptyString => false
  | String a EmptyString => Ascii.eqb a c
  | String _ s' => endswith_char c s'
  end.

(** [needle in hay] on strings: substring test. *)
Fixpoint contains (needle hay : string) : bool :=
  startswith needle hay ||
  match hay with
  | EmptyString => false
  | String _ hay' => contains needle hay'
  end.

(** [c in s] for a single character. *)
Fixpoint has_char (c : ascii) (s : string) : bool :=
  match s with
  | EmptyString => false
  | String a s' => Ascii.eqb a c || has_char c s'
  end.

Definition is_upper (c : ascii) : bool :=
  ((65 <=? nat_of_ascii c) && (nat_of_ascii c <=? 90))%nat.
Definition is_lower (c : ascii) : bool :=
  ((97 <=? nat_of_ascii c) && (nat_of_ascii c <=? 122))%nat.
Definition is_digit (c : ascii) : bool :=
  ((48 <=? nat_of_ascii c) && (nat_of_ascii c <=? 57))%nat.


(** [s.lower()], on ASCII text: only [A-Z] change.  (On other text Python
    follows Unicode: the Kelvin sign becomes [k].) *)
Definition lower_char (c : ascii) : ascii :=
  if is_upper c then ascii_of_nat (nat_of_ascii c + 32) else c.

Fixpoint lower (s : string) : string :=
  match s with
  | EmptyString => EmptyString
  | String c s' => String (lower_char c) (lower s')
  end.

(** Whitespace for [str.strip()], on ASCII text.  (On other text Python
    also strips the Unicode white space, the no-break space among it.) *)
Definition is_space (c : ascii) : bool :=
  let n := nat_of_ascii c in
  ((9 <=? n) && (n <=? 13) || (28 <=? n) && (n <=? 32))%nat.

Fixpoint lstrip (s : string) : string :=
  match s with
  | EmptyString => EmptyString
  | String c s' => if is_space c then lstrip s' else s
  end.

Fixpoint rstrip (s : string) : string :=
  match s with
  | EmptyString => EmptyString
  | String c s' =>
      match rstrip s' with
      | EmptyString => if is_space c then EmptyString else String c EmptyString
      | r => String c r
      end
  end.

(** [s.strip()] *)
Definition strip (s : string) : string := rstrip (lstrip s).

(** [" ".join(l)] and friends. *)
Definition join (sep : string) (l : list string) : string :=
  String.concat sep l.

(** [os.path.join(a, *p)] of [posixpath]. *)
Definition os_path_join (a : string) (p : list string) : string :=
  fold_left
    (fun path b =>
       if startswith "/" b then b
       else if (path =? "") || endswith_char "/" path then path +++ b
       else path +++ "/" +++ b)
    p a.

End Py.
Export Py.

(* ================================================================== *)
(** * [urllib.parse.urlparse(url).netloc] *)
(* ================================================================== *)

(** The network-location component as CPython's [urlsplit] computes it
    (3.11): leading C0 control characters and spaces are stripped, tabs and
    newlines removed, a leading scheme is split off, and when the remainder
    starts with two slashes the netloc runs up to the first of [/], [?],
    [#].  An unmatched square bracket in the netloc raises [ValueError].

    Two further checks of the library are left out: a netloc with both
    brackets is validated as an IP literal ([_check_bracketed_netloc]; the
    library raises [ValueError] on [http://[youtube.com]/], where this
    function returns), and a netloc that is not ASCII is checked under NFKC
    normalisation ([_checknetloc]).  The function is therefore that of the
    library on ASCII URLs whose netloc has no square bracket, and on those
    it rejects; the statements below that go through a returned netloc are
    made of such URLs. *)
Module Urllib.

Definition is_c0_or_space (c : ascii) : bool := (nat_of_ascii c <=? 32)%nat.

(** [url.lstrip(_WHATWG_C0_CONTROL_OR_SPACE)] *)
Fixpoint lstrip_c0 (s : string) : string :=
  match s with
  | EmptyString => EmptyString
  | String c s' => if is_c0_or_space c then lstrip_c0 s' else s
  end.

Definition is_unsafe (c : ascii) : bool :=
  Ascii.eqb c "009" || Ascii.eqb c "013" || Ascii.eqb c "010".

(** [url.replace(b, "")] for each [b] of [_UNSAFE_URL_BYTES_TO_REMOVE]. *)
Fixpoint remove_unsafe (s : string) : string :=
  match s with
  | EmptyString => EmptyString
  | String c s' =>
      if is_unsafe c then remove_unsafe s' else String c (remove_unsafe s')
  end.

Definition is_scheme_char (c : ascii) : bool :=
  is_lower c || is_upper c || is_digit c ||
  Ascii.eqb c "+" || Ascii.eqb c "-" || Ascii.eqb c ".".

(** Scans the candidate scheme: [Some rest] when a colon is reached after
    scheme characters only ([rest] is what follows the colon), [None]
    when another character comes first or there is no colon. *)
Fixpoint after_scheme (s : string) : option string :=
  match s with
  | EmptyString => None
  | String c s' =>
      if Ascii.eqb c ":" then Some s'
      else if is_scheme_char c then after_scheme s'
      else None
  end.

(** The URL once its scheme, if any, is removed: the first colon must be
    at a positive index, the first character an ASCII letter and all
    characters before the colon scheme characters. *)
Definition strip_scheme (url : string) : string :=
  match url with
  | EmptyString => url
  | String c _ =>
      if is_lower c || is_upper c then
        match after_scheme url with
        | Some rest => rest
        | None => url
        end
      else url
  end.

Definition is_delim (c : ascii) : bool :=
  Ascii.eqb c "/" || Ascii.eqb c "?" || Ascii.eqb c "#".

(** [_splitnetloc]: the text up to the earliest delimiter. *)
Fixpoint until_delim (s : string) : string :=
  match s with
  | EmptyString => EmptyString
  | String c s' => if is_delim c then EmptyString else String c (until_delim s')
  end.

Definition urlparse_netloc (url : string) : result string :=
  let url := lstrip_c0 url in
  let url := remove_unsafe url in
  let url := strip_scheme url in
  match url with
  | String "/" (String "/" rest) =>
      let netloc := until_delim rest in
      if (has_char "[" netloc && negb (has_char "]" netloc))
         || (has_char "]" netloc && negb (has_char "[" netloc))
      then Raised (ValueError "Invalid IPv6 URL")
      else Returned netloc
  | _ => Returned ""
  end.

End Urllib.

(* ================================================================== *)
(** * Data model *)
(* ================================================================== *)

Inductive Platform : Type :=
| YOUTUBE | INSTAGRAM | TIKTOK | TWITTER | FACEBOOK | DAILYMOTION | VIMEO
| UNKNOWN.

Inductive DownloadType : Type :=
| VIDEO | AUDIO | POST | STORY | PROFILE_PIC | HIGHLIGHTS.

Definition Platform_eqb (a b : Platform) : bool :=
  match a, b with
  | YOUTUBE, YOUTUBE | INSTAGRAM, INSTAGRAM | TIKTOK, TIKTOK
  | TWITTER, TWITTER | FACEBOOK, FACEBOOK | DAILYMOTION, DAILYMOTION
  | VIMEO, VIMEO | UNKNOWN, UNKNOWN => true
  | _, _ => false
  end.

(** [download_type == DownloadType.AUDIO] on an optional download type. *)
Definition is_AUDIO (t : option DownloadType) : bool :=
  match t with
  | Some AUDIO => true
  | _ => false
  end.

(** A [pathlib.Path], identified with its string form [str(path)]. *)
Definition Path : Type := string.

Record DownloadConfig : Type := {
  url : string;
  platform : Platform;
  download_type : option DownloadType;
  output_dir : Path;
  quality : string;
  format : option string;
  cookies_file : option Path;
  metadata : bool;
  subtitles : bool;
  thumbnail : bool;
  sponsorblock : bool;
  concurrent_fragments : Z;
  retries : Z;
  rate_limit : option string;
  proxy : option string
}.

(* ================================================================== *)
(** * The world: file system and log *)
(* ================================================================== *)

Inductive Kind : Type := File | Dir.

(** The file system: what, if anything, is at each path. *)
Definition FS : Type := Path -> option Kind.

(** [Path.exists()] *)
Definition path_exists (fs : FS) (p : Path) : bool :=
  match fs p with
  | Some _ => true
  | None => false
  end.

(** [p and p.exists()] for an optional path (a [Path] is always true). *)
Definition set_and_exists (fs : FS) (p : option Path) : bool :=
  match p with
  | Some q => path_exists fs q
  | None => false
  end.

Inductive Level : Type := INFO | ERROR.

Record World : Type := {
  fs : FS;
  log : list (Level * string)
}.

(** Computations that read and change the world and may raise. *)
Definition M (A : Type) : Type := World -> result A * World.

Definition ret {A} (a : A) : M A := fun w => (Returned a, w).
Definition raise {A} (e : exn) : M A := fun w => (Raised e, w).
Definition bind {A B} (m : M A) (k : A -> M B) : M B :=
  fun w =>
    match m w with
    | (Returned a, w') => k a w'
    | (Raised e, w') => (Raised e, w')
    end.

Notation "x <- m ;; k" := (bind m (fun x => k))
  (at level 61, m at next level, right associativity).
Notation "m ;;; k" := (bind m (fun _ => k))
  (at level 61, right associativity).

(** [try: body  except Exception as e: handler(e)] *)
Definition try_except {A} (body : M A) (handler : exn -> M A) : M A :=
  fun w =>
    match body w with
    | (Returned a, w') => (Returned a, w')
    | (Raised e, w') => handler e w'
    end.

Definition logger (lvl : Level) (msg : string) : M unit :=
  fun w => (Returned tt, {| fs := fs w; log := log w ++ [(lvl, msg)] |}).

Definition get_fs : M FS := fun w => (Returned (fs w), w).

(** The proper ancestors of a path, nearest last: the prefixes that end
    before a separator (the root for an absolute path). *)
Fixpoint ancestors_from (seen rest : string) : list Path :=
  match rest with
  | EmptyString => []
  | String c rest' =>
      if Ascii.eqb c "/" then
        (if seen =? "" then "/" else seen)
          :: ancestors_from (seen +++ "/") rest'
      else ancestors_from (seen +++ String c "") rest'
  end.

Definition ancestors (p : Path) : list Path := ancestors_from "" p.

(** [path.mkdir(parents=True, exist_ok=True)] on a file system without
    permissions or quotas: the directory and its missing ancestors are
    created; an ancestor (or the path) that is a regular file makes the
    call fail, before anything is created.  The other failures of the call
    (a parent that may not be written, a full disk, a path the system
    refuses), some of which come after ancestors were created, and the class
    and text of the error ([NotADirectoryError] or [FileExistsError] with
    the system's message) are not modelled: what is stated below of
    [validate_config] is stated of the runs in which the directory exists
    or is created, and of the errors that [validate_config] raises
    itself. *)
Definition mkdir_parents (p : Path) : M unit :=
  fun w =>
    let chain := ancestors p ++ [p] in
    if existsb (fun q => match fs w q with Some File => true | _ => false end)
         chain
    then (Raised (OSError ("Not a directory: " +++ p)), w)
    else
      (Returned tt,
       {| fs := fun q => if existsb (String.eqb q) chain then Some Dir
                         else fs w q;
          log := log w |}).

(* ================================================================== *)
(** * [class Downloader] *)
(* ================================================================== *)

(** The loop shared by both platform detectors:
    [for key, platform in table: if key in text: return platform]
    and [Platform.UNKNOWN] after the loop. *)
Fixpoint scan_platforms (text : string) (table : list (string * Platform))
  : Platform :=
  match table with
  | [] => UNKNOWN
  | (key, p) :: table' =>
      if contains key text then p else scan_platforms text table'
  end.

Module Downloader.

Definition YT_DLP_PATH : string := "yt-dlp".
Definition COOKIES_FILE : string := "insta.txt".

(** The dictionary literal, in insertion order (the order in which
    [.items()] yields it). *)
Definition SUPPORTED_PLATFORMS : list (string * Platform) :=
  [ ("youtube.com", YOUTUBE);
    ("youtu.be", YOUTUBE);
    ("instagram.com", INSTAGRAM);
    ("tiktok.com", TIKTOK);
    ("twitter.com", TWITTER);
    ("x.com", TWITTER);
    ("facebook.com", FACEBOOK);
    ("fb.watch", FACEBOOK);
    ("dailymotion.com", DAILYMOTION);
    ("dai.ly", DAILYMOTION);
    ("vimeo.com", VIMEO) ].

Definition detect_platform (url : string) : result Platform :=
  match Urllib.urlparse_netloc url with
  | Raised e => Raised e
  | Returned netloc =>
      let domain := lower netloc in
      Returned (scan_platforms domain SUPPORTED_PLATFORMS)
  end.

Definition validate_config (config : DownloadConfig) : M unit :=
  if url config =? "" then
    raise (ValueError "URL cannot be empty")
  else if Platform_eqb (platform config) UNKNOWN then
    raise (ValueError ("Unsupported URL: " +++ url config))
  else
    fs0 <- get_fs ;;
    (if negb (path_exists fs0 (output_dir config))
     then mkdir_parents (output_dir config)
     else ret tt) ;;;
    fs1 <- get_fs ;;
    match cookies_file config with
    | Some p =>
        if negb (path_exists fs1 p)
        then raise (FileNotFoundError ("Cookies file not found: " +++ p))
        else ret tt
    | None => ret tt
    end.

(** [templates.get(platform, default)] over the dictionary literal. *)
Definition templates : list (Platform * string) :=
  [ (YOUTUBE, "%(title)s [%(id)s].%(ext)s");
    (INSTAGRAM, "%(uploader)s - %(title)s [%(id)s].%(ext)s");
    (TIKTOK, "%(uploader)s - %(title)s [%(id)s].%(ext)s");
    (TWITTER, "%(uploader)s - %(title)s [%(id)s].%(ext)s");
    (FACEBOOK, "%(title)s [%(id)s].%(ext)s");
    (DAILYMOTION, "%(title)s [%(id)s].%(ext)s");
    (VIMEO, "%(title)s [%(id)s].%(ext)s") ].

Fixpoint dict_get (d : list (Platform * string)) (k : Platform)
  (default : string) : string :=
  match d with
  | [] => default
  | (k', v) :: d' => if Platform_eqb k k' then v else dict_get d' k default
  end.

Definition get_output_template (config : DownloadConfig) : string :=
  let base_template :=
    dict_get templates (platform config) "%(title)s [%(id)s].%(ext)s" in
  if is_AUDIO (download_type config) then
    os_path_join (output_dir config) ["Audio"; base_template]
  else
    os_path_join (output_dir config) ["Video"; base_template].

Definition format_map : list (Platform * string) :=
  [ (YOUTUBE, "bestvideo[ext=mp4]+bestaudio[ext=m4a]/best[ext=mp4]/best");
    (INSTAGRAM, "best");
    (TIKTOK, "best");
    (TWITTER, "best");
    (FACEBOOK, "best");
    (DAILYMOTION, "best");
    (VIMEO, "best") ].

Definition get_default_format (config : DownloadConfig) : string :=
  if is_AUDIO (download_type config) then "bestaudio/best"
  else dict_get format_map (platform config) "best".

(** Lines 110-139 of [build_yt_dlp_command]: the command as successive
    [cmd.extend]s build it, before the cookie arguments and the URL. *)
Definition command_options (config : DownloadConfig) : list string :=
  let cmd := [YT_DLP_PATH] in
  (* Basic options *)
  let cmd := cmd ++
    [ "--no-playlist";
      "--ignore-errors";
      "--retries"; str_int (retries config);
      "--concurrent-fragments"; str_int (concurrent_fragments config);
      "--progress";
      "--newline";
      "--console-title" ] in
  (* Output template *)
  let output_template := get_output_template config in
  let cmd := cmd ++ ["-o"; output_template] in
  (* Format selection *)
  let cmd :=
    if_truthy (format config)
      (fun f => cmd ++ ["-f"; f])
      (cmd ++ ["-f"; get_default_format config]) in
  (* Rate limiting *)
  let cmd :=
    if_truthy (rate_limit config)
      (fun r => cmd ++ ["--limit-rate"; r]) cmd in
  (* Proxy *)
  let cmd :=
    if_truthy (proxy config) (fun p => cmd ++ ["--proxy"; p]) cmd in
  cmd.

(** [build_yt_dlp_command]: the options above, then lines 141-158.  The
    file system is only read. *)
Definition build_yt_dlp_command (fs : FS) (config : DownloadConfig)
  : list string :=
  let cmd := command_options config in
  (* Get the appropriate cookies file *)
  let cookies_file :=
    if set_and_exists fs (cookies_file config) then cookies_file config
    else if Platform_eqb (platform config) YOUTUBE
            && path_exists fs COOKIES_FILE
    then Some COOKIES_FILE
    else None in
  (* Add cookies to command if available *)
  let cmd :=
    match cookies_file with
    | Some c => cmd ++ ["--cookies"; c]
    | None =>
        if Platform_eqb (platform config) INSTAGRAM
        then cmd ++ ["--cookies-from-browser"; "chrome"]
        else cmd
    end in
  (* Add the URL at the end *)
  cmd ++ [url config].

(** What [subprocess.Popen(cmd, ...)] and the use of the process bring
    about, as the caller observes it, in a run in which every call on the
    process comes back: process creation fails; or the process is created
    and reading its output or waiting for it raises after some lines, the
    process being then left to itself ([exited] is the status with which
    it ends, if it ends); or its output is read to the end and it is waited
    for, leaving its [returncode] and what [stderr.read()] gives.

    A process that stops before closing its output (one that fills the
    pipe of its standard error, which [download] reads only after the
    wait) keeps [download] waiting without end; such a run has no
    description here, and what is proved of [download] below is proved of
    the runs that come back. *)
Inductive ProcessRun : Type :=
| SpawnFails (e : exn)
| RunFails (lines : list string) (e : exn) (exited : option Z)
| Exits (lines : list string) (returncode : Z) (stderr : result string).

(** [for line in process.stdout: line = line.strip(); if line: log it] *)
Fixpoint log_progress (lines : list string) : M unit :=
  match lines with
  | [] => ret tt
  | line :: lines' =>
      let line := strip line in
      (if line =? "" then ret tt else logger INFO line) ;;;
      log_progress lines'
  end.

(** [download].  The command is built and joined for the log before the
    [try] (lines 197-198).  Here these two lines cannot raise: every
    argument is a string by the type of the configuration, as the
    annotations of the dataclass declare.  The dataclass does not enforce
    them: a caller that stores another value in a field read by the builder
    (the HTTP layer stores the JSON value of [format_id]) makes
    [' '.join(cmd)] raise [TypeError] out of [download]; see
    [Endpoints.download_video]. *)
Definition download (popen : list string -> ProcessRun)
  (config : DownloadConfig) : M bool :=
  fs0 <- get_fs ;;
  let cmd := build_yt_dlp_command fs0 config in
  logger INFO ("Executing command: " +++ join " " cmd) ;;;
  try_except
    (match popen cmd with
     | SpawnFails e => raise e
     | RunFails lines e _ => log_progress lines ;;; raise e
     | Exits lines returncode stderr =>
         log_progress lines ;;;
         if negb (returncode =? 0)%Z then
           error_output <-
             (match stderr with
              | Returned s => ret s
              | Raised e => raise e
              end) ;;
           logger ERROR ("Download failed with error: " +++ error_output) ;;;
           ret false
         else ret true
     end)
    (fun e =>
       match e with
       | CalledProcessError _ stderr =>
           logger ERROR ("Download failed with error: " +++ stderr) ;;;
           ret false
       | _ =>
           logger ERROR
             ("Unexpected error during download: " +++ str_exn e) ;;;
           ret false
       end).

End Downloader.

(* ================================================================== *)
(** * [detect_platform] of [api.py] *)
(* ================================================================== *)

Module Api.

Definition detect_platform (url : string) : Platform :=
  scan_platforms url Downloader.SUPPORTED_PLATFORMS.

End Api.

(* ================================================================== *)
(** * [class BatchDownloader] and the summary of [main] *)
(* ================================================================== *)

Module BatchDownloader.

(** [_download_single]: the per-URL configuration, then
    [Downloader(download_config)] (which validates) and [download()]. *)
Definition _download_single (popen : list string -> Downloader.ProcessRun)
  (url0 : string) (config : DownloadConfig) : M bool :=
  platform0 <-
    (if negb (Platform_eqb (platform config) UNKNOWN)
     then ret (platform config)
     else match Downloader.detect_platform url0 with
          | Returned p => ret p
          | Raised e => raise e
          end) ;;
  let download_config :=
    {| url := url0;
       platform := platform0;
       download_type := download_type config;
       output_dir := output_dir config;
       quality := quality config;
       format := format config;
       cookies_file := cookies_file config;
       metadata := metadata config;
       subtitles := subtitles config;
       thumbnail := thumbnail config;
       sponsorblock := sponsorblock config;
       concurrent_fragments := concurrent_fragments config;
       retries := retries config;
       rate_limit := rate_limit config;
       proxy := proxy config |} in
  Downloader.validate_config download_config ;;;
  Downloader.download popen download_config.

(** A [Dict[str, bool]]: the items in insertion order, keys distinct. *)
Definition dict : Type := list (string * bool).

(** [d[k] = v]: an existing key keeps its place, a new key goes last. *)
Fixpoint dict_set (k : string) (v : bool) (d : dict) : dict :=
  match d with
  | [] => [(k, v)]
  | (k', v') :: d' =>
      if k =? k' then (k', v) :: d' else (k', v') :: dict_set k v d'
  end.

Fixpoint dict_lookup (k : string) (d : dict) : option bool :=
  match d with
  | [] => None
  | (k', v) :: d' => if k =? k' then Some v else dict_lookup k d'
  end.

Definition keys (d : dict) : list string := map fst d.

(** The loop over [as_completed(futures)].  A future is the index at
    which its URL was submitted; [outcome] is what [future.result()]
    does for it (the unit's return value, or the exception it raised);
    [yielded] is the order in which [as_completed] hands the futures to the
    loop.  That is not the order in which the units finish: the futures
    that have already finished when [as_completed] is called come first, in
    the iteration order of a [set], and only the others follow as they
    finish.  A unit that never finishes keeps the loop waiting; then no
    list [yielded] contains every future and the batch does not return. *)
Fixpoint collect (urls : list string) (outcome : nat -> result bool)
  (yielded : list nat) (results : dict) : M dict :=
  match yielded with
  | [] => ret results
  | future :: yielded' =>
      match nth_error urls future with
      | None => collect urls outcome yielded' results
      | Some url0 =>
          results' <-
            try_except
              (r <- (match outcome future with
                     | Returned b => ret b
                     | Raised e => raise e
                     end) ;;
               ret (dict_set url0 r results))
              (fun e =>
                 logger ERROR
                   ("Error downloading " +++ url0 +++ ": " +++ str_exn e) ;;;
                 ret (dict_set url0 false results)) ;;
          collect urls outcome yielded' results'
      end
  end.

(** [download_batch]: the pool is created ([ThreadPoolExecutor] rejects a
    size that is not positive), one unit is submitted per element of
    [urls], and the results are collected in the order [yielded] in which
    [as_completed] hands over the futures. *)
Definition download_batch (urls : list string) (max_workers : Z)
  (outcome : nat -> result bool) (yielded : list nat) : M dict :=
  if (max_workers <=? 0)%Z then
    raise (ValueError "max_workers must be greater than 0")
  else
    collect urls outcome yielded [].

(** The summary [main] logs: the counts, and the failed URLs in the
    order of [results.items()]. *)
Record Summary : Type := {
  total : nat;
  successful : nat;
  failed : nat;
  failed_urls : list string
}.

Definition summary (results : dict) : Summary :=
  let successful := List.length (filter (fun r => snd r) results) in
  {| total := List.length results;
     successful := successful;
     failed := List.length results - successful;
     failed_urls :=
       if (successful <? List.length results)%nat
       then map fst (filter (fun r => negb (snd r)) results)
       else [] |}.

End BatchDownloader.

(* ================================================================== *)
(** * Reading a command *)
(* ================================================================== *)

(** The value of an option in a command: the argument that follows the
    first occurrence of the flag. *)
Fixpoint option_value (flag : string) (cmd : list string) : option string :=
  match cmd with
  | [] => None
  | a :: rest =>
      if a =? flag then hd_error rest else option_value flag rest
  end.

(** The text of a number begins with a digit, or with a minus sign and a
    digit. *)
Definition number_text (s : string) : bool :=
  match s with
  | String c rest =>
      is_digit c
      || (Ascii.eqb c "-"
          && match rest with String d _ => is_digit d | EmptyString => false end)
  | EmptyString => false
  end.

(** The strings of a configuration that reach the command unchanged. *)
Definition caller_strings (config : DownloadConfig) : list string :=
  if_truthy (format config) (fun f => [f]) []
  ++ if_truthy (rate_limit config) (fun r => [r]) []
  ++ if_truthy (proxy config) (fun p => [p]) []
  ++ match cookies_file config with Some c => [c] | None => [] end
  ++ [url config].

(** A configuration for the examples. *)
Definition sample_config : DownloadConfig :=
  {| url := "https://youtube.com/watch?v=abc"; platform := YOUTUBE;
     download_type := None; output_dir := "/tmp/out"; quality := "best";
     format := None; cookies_file := None; metadata := true;
     subtitles := false; thumbnail := true; sponsorblock := false;
     concurrent_fragments := 1; retries := 10; rate_limit := None;
     proxy := None |}.

(** The same with an explicit but empty format string. *)
Definition empty_format_config : DownloadConfig :=
  {| url := "https://youtube.com/watch?v=abc"; platform := YOUTUBE;
     download_type := None; output_dir := "/tmp/out"; quality := "best";
     format := Some ""; cookies_file := None; metadata := true;
     subtitles := false; thumbnail := true; sponsorblock := false;
     concurrent_fragments := 1; retries := 10; rate_limit := None;
     proxy := None |}.

(** The same again, the five presentation fields changed. *)
Definition sample_config_presentation : DownloadConfig :=
  {| url := "https://youtube.com/watch?v=abc"; platform := YOUTUBE;
     download_type := None; output_dir := "/tmp/out"; quality := "1080p";
     format := None; cookies_file := None; metadata := false;
     subtitles := true; thumbnail := false; sponsorblock := true;
     concurrent_fragments := 1; retries := 10; rate_limit := None;
     proxy := None |}.

(** An Instagram download with an explicit cookie file and format. *)
Definition instagram_config : DownloadConfig :=
  {| url := "https://instagram.com/p/xyz"; platform := INSTAGRAM;
     download_type := Some VIDEO; output_dir := "out"; quality := "best";
     format := Some "22"; cookies_file := Some "cookies.txt";
     metadata := true; subtitles := false; thumbnail := true;
     sponsorblock := false; concurrent_fragments := 4; retries := 3;
     rate_limit := Some "50K"; proxy := None |}.

(** The same download asked for the URL [--cookies-from-browser] (a line
    of the input file, or an argument given after [--], with [--platform
    instagram]; or any caller of the class): validation accepts it, the URL
    being non-empty and the platform given. *)
Definition flag_url_config : DownloadConfig :=
  {| url := "--cookies-from-browser"; platform := INSTAGRAM;
     download_type := Some VIDEO; output_dir := "out"; quality := "best";
     format := Some "22"; cookies_file := Some "cookies.txt";
     metadata := true; subtitles := false; thumbnail := true;
     sponsorblock := false; concurrent_fragments := 4; retries := 3;
     rate_limit := Some "50K"; proxy := None |}.

(** The empty file system, and one in which the given paths are files. *)
Definition no_files : FS := fun _ => None.

Definition with_files (paths : list Path) : FS :=
  fun q => if existsb (String.eqb q) paths then Some File else None.

Definition empty_world : World := {| fs := no_files; log := [] |}.

(* ================================================================== *)
(** * Reading a batch *)
(* ================================================================== *)

(** What the batch records for a unit: its return value, and false when it
    raised. *)
Definition recorded (o : result bool) : bool :=
  match o with
  | Returned b => b
  | Raised _ => false
  end.


(** The mapping after the given futures were yielded, as a plain fold:
    each yielded unit writes what the batch records for it under its URL. *)
Definition record_all (urls : list string) (outcome : nat -> result bool)
  (yielded : list nat) (results : BatchDownloader.dict)
  : BatchDownloader.dict :=
  fold_left
    (fun d future =>
       match nth_error urls future with
       | None => d
       | Some u => BatchDownloader.dict_set u (recorded (outcome future)) d
       end)
    yielded results.

(** [future] is the last unit that [as_completed] yields for the URL
    [u]. *)
Definition last_yielded_for (urls : list string) (yielded : list nat)
  (u : string) (future : nat) : Prop :=
  nth_error urls future = Some u
  /\ exists before after,
       yielded = before ++ future :: after
       /\ forall j, In j after -> nth_error urls j <> Some u.

(* ================================================================== *)
(** * Reading a URL *)
(* ================================================================== *)


(** [key] occurs in [text] as a substring. *)
Definition occurs (key text : string) : Prop :=
  exists before after, text = before +++ key +++ after.

(* ================================================================== *)
(** * Reading a log *)
(* ================================================================== *)

(** The status with which the process of a run exits, if a process was
    created and exits. *)
Definition exit_status (run : Downloader.ProcessRun) : option Z :=
  match run with
  | Downloader.SpawnFails _ => None
  | Downloader.RunFails _ _ exited => exited
  | Downloader.Exits _ returncode _ => Some returncode
  end.

(** A run in which the process prints a byte sequence that is not valid in
    the encoding of the pipe, so that reading its output raises, and then
    exits with status zero. *)
Definition undecodable_run (cmd : list string) : Downloader.ProcessRun :=
  Downloader.RunFails ["[download] Destination: out.mp4"]
    (UnicodeDecodeError
       "'utf-8' codec can't decode byte 0xff in position 0: invalid start byte")
    (Some 0%Z).

(** The lines a process printed before it stopped or failed. *)
Definition output_lines (run : Downloader.ProcessRun) : list string :=
  match run with
  | Downloader.SpawnFails _ => []
  | Downloader.RunFails lines _ _ => lines
  | Downloader.Exits lines _ _ => lines
  end.

(** The records of the progress lines: the lines that are not blank,
    stripped, at level INFO, in order. *)
Definition progress_entries (lines : list string) : list (Level * string) :=
  map (fun line => (INFO, strip line))
    (filter (fun line => negb (strip line =? "")) lines).

(** The records of the units that raised, in the order in which
    [as_completed] yields them. *)
Definition batch_error_entries (urls : list string)
  (outcome : nat -> result bool) (yielded : list nat)
  : list (Level * string) :=
  flat_map
    (fun future =>
       match nth_error urls future, outcome future with
       | Some u, Raised e =>
           [(ERROR, "Error downloading " +++ u +++ ": " +++ str_exn e)]
       | _, _ => []
       end)
    yielded.

(** A template for a batch over several platforms, as the command line
    builds it by default. *)
Definition generic_template : DownloadConfig :=
  {| url := ""; platform := UNKNOWN; download_type := None;
     output_dir := "downloads"; quality := "best"; format := None;
     cookies_file := None; metadata := false; subtitles := false;
     thumbnail := false; sponsorblock := false; concurrent_fragments := 1;
     retries := 10; rate_limit := None; proxy := None |}.

(* ================================================================== *)
(** * [main] and the program entry *)
(* ================================================================== *)

Module Main.

(** The values [argparse] admits for [--platform] and [--type]. *)
Inductive PlatformChoice : Type :=
| youtube | instagram | tiktok | twitter | facebook | dailymotion | vimeo
| auto_detect.

Inductive TypeChoice : Type :=
| video | audio | post | story | profile_pic | highlights.

(** The parsed arguments ([argparse.Namespace]). *)
Record Args : Type := {
  arg_urls : list string;
  arg_input_file : option Path;
  arg_output_dir : Path;
  arg_type : option TypeChoice;
  arg_format : option string;
  arg_quality : string;
  arg_platform : PlatformChoice;
  arg_cookies : option Path;
  arg_proxy : option string;
  arg_rate_limit : option string;
  arg_retries : Z;
  arg_concurrent : Z;
  arg_metadata : bool;
  arg_subtitles : bool;
  arg_thumbnail : bool;
  arg_sponsorblock : bool;
  arg_workers : Z
}.

(** What [parse_args()] does, the first statement of [main]: it returns
    the parsed arguments, or [argparse] prints a message and ends the
    program itself, with status 2 for a command line it rejects and status 0
    for [--help].  ([SystemExit] is not an [Exception]: no handler of the
    program catches it.) *)
Inductive ParseResult : Type :=
| Parsed (args : Args)
| ParserExits (status : Z).

Definition platform_map (c : PlatformChoice) : Platform :=
  match c with
  | youtube => YOUTUBE
  | instagram => INSTAGRAM
  | tiktok => TIKTOK
  | twitter => TWITTER
  | facebook => FACEBOOK
  | dailymotion => DAILYMOTION
  | vimeo => VIMEO
  | auto_detect => UNKNOWN
  end.

Definition type_map (c : TypeChoice) : DownloadType :=
  match c with
  | video => VIDEO
  | audio => AUDIO
  | post => POST
  | story => STORY
  | profile_pic => PROFILE_PIC
  | highlights => HIGHLIGHTS
  end.

(** [line.strip() for line in f if line.strip() and not
    line.startswith('#')] *)
Definition input_file_urls (lines : list string) : list string :=
  map strip
    (filter (fun line => negb (strip line =? "") && negb (startswith "#" line))
       lines).

(** Lines 405-412: the URLs of the command line, then those of the input
    file when one is given; [read_lines] is what opening and reading the
    file gives. *)
Definition collect_urls (args : Args)
  (read_lines : Path -> result (list string)) : result (list string) :=
  let urls := arg_urls args in
  match arg_input_file args with
  | Some f =>
      match read_lines f with
      | Returned lines => Returned (urls ++ input_file_urls lines)
      | Raised e => Raised e
      end
  | None => Returned urls
  end.

(** Lines 441-457: the template configuration. *)
Definition make_config (args : Args) : DownloadConfig :=
  {| url := "";
     platform := platform_map (arg_platform args);
     download_type := option_map type_map (arg_type args);
     output_dir := arg_output_dir args;
     quality := arg_quality args;
     format := arg_format args;
     cookies_file := arg_cookies args;
     metadata := false;
     subtitles := false;
     thumbnail := false;
     sponsorblock := arg_sponsorblock args;
     concurrent_fragments := arg_concurrent args;
     retries := arg_retries args;
     rate_limit := arg_rate_limit args;
     proxy := arg_proxy args |}.

(** [for url, success in results.items(): if not success: log it] *)
Fixpoint log_failed (results : BatchDownloader.dict) : M unit :=
  match results with
  | [] => ret tt
  | (u, success) :: results' =>
      (if negb success then logger INFO ("- " +++ u) else ret tt) ;;;
      log_failed results'
  end.

(** Lines 463-475: the summary, and the exit status (0 when [main]
    returns, 1 for [sys.exit(1)]). *)
Definition report (results : BatchDownloader.dict) : M Z :=
  let successful := List.length (filter (fun r => snd r) results) in
  logger INFO (String "010" "Download summary:") ;;;
  logger INFO ("Total URLs: " +++ str_int (Z.of_nat (List.length results))) ;;;
  logger INFO ("Successful: " +++ str_int (Z.of_nat successful)) ;;;
  logger INFO
    ("Failed: "
     +++ str_int (Z.of_nat (List.length results) - Z.of_nat successful)) ;;;
  if (successful <? List.length results)%nat then
    logger INFO (String "010" "Failed URLs:") ;;;
    log_failed results ;;;
    ret 1%Z
  else ret 0%Z.

(** [main]: the exit status of the program, or the exception that
    escapes.  [parse_args] is what the call of line 402 does; [units
    config i] is what the unit submitted at index [i] does under the
    template [config]; [yielded] is the order in which [as_completed]
    yields the futures. *)
Definition main (parse_args : ParseResult)
  (read_lines : Path -> result (list string))
  (units : DownloadConfig -> nat -> result bool) (yielded : list nat)
  : M Z :=
  match parse_args with
  | ParserExits status => ret status
  | Parsed args =>
      match collect_urls args read_lines with
      | Raised e =>
          logger ERROR ("Error reading input file: " +++ str_exn e) ;;;
          ret 1%Z
      | Returned [] =>
          logger ERROR "No URLs provided" ;;;
          ret 1%Z
      | Returned urls =>
          let config := make_config args in
          results <-
            BatchDownloader.download_batch urls (arg_workers args)
              (units config) yielded ;;
          report results
      end
  end.

(** The entry of the program: an exception that escapes [main] is logged
    and the status is 1. *)
Definition program (parse_args : ParseResult)
  (read_lines : Path -> result (list string))
  (units : DownloadConfig -> nat -> result bool) (yielded : list nat)
  : M Z :=
  try_except (main parse_args read_lines units yielded)
    (fun e => logger ERROR ("Fatal error: " +++ str_exn e) ;;; ret 1%Z).

End Main.

(** The arguments of a run with the defaults of the parser. *)
Definition default_args (urls : list string) : Main.Args :=
  {| Main.arg_urls := urls; Main.arg_input_file := None;
     Main.arg_output_dir := "downloads"; Main.arg_type := None;
     Main.arg_format := None; Main.arg_quality := "best";
     Main.arg_platform := Main.auto_detect; Main.arg_cookies := None;
     Main.arg_proxy := None; Main.arg_rate_limit := None;
     Main.arg_retries := 10; Main.arg_concurrent := 1;
     Main.arg_metadata := false; Main.arg_subtitles := false;
     Main.arg_thumbnail := false; Main.arg_sponsorblock := false;
     Main.arg_workers := 4 |}.

(* ================================================================== *)
(** * Plain URLs *)
(* ================================================================== *)

(** A host written with lower-case letters, digits, dots and hyphens. *)
Definition plain_char (c : ascii) : bool :=
  is_lower c || is_digit c || Ascii.eqb c "." || Ascii.eqb c "-".

Fixpoint plain_host (s : string) : bool :=
  match s with
  | EmptyString => true
  | String c s' => plain_char c && plain_host s'
  end.

(* ================================================================== *)
(** * The endpoints of [api.py] *)
(* ================================================================== *)

Module Endpoints.

(** A field of the JSON body of a request, as [data.get(key)] gives it.
    [Text s] is a string.  [Other truthy misuse] is any other value ([None]
    for a key that is absent or null, a number, a boolean, an array, an
    object): [truthy] is its truth value, and [misuse] the exception that
    [download_video] meets when it goes on with such a value where a
    string is needed (for a URL that is a number, the [TypeError] of
    [domain in url]; for a format that is not a string, the [TypeError] of
    [' '.join(cmd)] at line 198 of [downloader.py], which is outside the
    [try] of [download]). *)
Inductive Field : Type :=
| Text (s : string)
| Other (truthy : bool) (misuse : exn).

(** A format of the engine's metadata, by the keys the handler reads.
    [f['format_id']] needs the key: [f_format_id] is [None] when the key is
    absent, and otherwise its value, which may be null.  The other keys are
    read with [f.get]: an absent key and a null value are both [None].
    Heights and sizes are integers, the rest strings. *)
Record Format : Type := {
  f_format_id : option (option string);
  f_height : option Z;
  f_ext : option string;
  f_filesize : option Z;
  f_filesize_approx : option Z
}.

(** The metadata [extract_info] returns, a mapping, by the keys the handler
    reads; [info.get('formats', [])] is the empty list when the key is
    absent, and a list of mappings otherwise. *)
Record Info : Type := {
  i_title : option string;
  i_thumbnail : option string;
  i_duration : option Z;
  i_formats : list Format
}.

(** An entry of the [formats] list of the answer. *)
Record Entry : Type := {
  format_id : option string;
  resolution : option Z;
  ext : option string;
  filesize : option Z
}.

(** The JSON bodies of the answers, and a file sent as attachment. *)
Inductive Body : Type :=
| ErrorBody (error : string)
| InfoBody (title thumbnail : option string) (duration : option Z)
    (formats : list Entry)
| FileBody (file : Path).

Definition Response : Type := (Z * Body)%type.

(** [f.get('height') in [480, 720, 1080]] *)
Definition height_listed (h : option Z) : bool :=
  match h with
  | Some n => (n =? 480)%Z || (n =? 720)%Z || (n =? 1080)%Z
  | None => false
  end.

(** [a or b] on optional numbers: [None] and zero are false. *)
Definition or_else (a b : option Z) : option Z :=
  match a with
  | Some n => if (n =? 0)%Z then b else a
  | None => b
  end.

(** The list comprehension of [fetch_info]: [None] stands for the
    [KeyError] of [f['format_id']] on a listed format without that key,
    which ends the comprehension; a key that is there with a null value
    gives an entry with a null identifier. *)
Fixpoint select_formats (formats : list Format) : option (list Entry) :=
  match formats with
  | [] => Some []
  | f :: formats' =>
      if height_listed (f_height f) then
        match f_format_id f with
        | None => None
        | Some id =>
            match select_formats formats' with
            | None => None
            | Some entries =>
                Some ({| format_id := id;
                         resolution := f_height f;
                         ext := f_ext f;
                         filesize :=
                           or_else (f_filesize f) (f_filesize_approx f) |}
                      :: entries)
            end
        end
      else select_formats formats'
  end.

(** [not value] for a field of the request. *)
Definition missing (value : Field) : bool :=
  match value with
  | Text s => s =? ""
  | Other truthy _ => negb truthy
  end.

(** [POST /api/info].  [data] is the [url] field of the request body, or
    the exception raised while reading it (a body that is not JSON, or not
    an object); [extract_info] is the engine's metadata extraction on the
    value given: it returns the metadata, or raises; a result that is not
    of the shape of [Info] (no mapping, formats that are not a list of
    mappings) makes the handler raise when it reads it, and stands here as
    that exception. *)
Definition fetch_info (data : result Field)
  (extract_info : Field -> result Info) : Response :=
  match data with
  | Raised e => (500%Z, ErrorBody (str_exn e))
  | Returned url0 =>
      if missing url0 then (400%Z, ErrorBody "Missing URL")
      else
        match extract_info url0 with
        | Raised e => (500%Z, ErrorBody (str_exn e))
        | Returned info =>
            match select_formats (i_formats info) with
            | None => (500%Z, ErrorBody "'format_id'")
            | Some formats =>
                (200%Z,
                 InfoBody (i_title info) (i_thumbnail info)
                   (i_duration info) formats)
            end
        end
  end.

(** The configuration [download_video] builds from a URL and a format
    that are strings; the fields it does not give take the defaults of the
    dataclass. *)
Definition download_config (url0 format_code : string) (temp_dir : Path)
  : DownloadConfig :=
  {| url := url0;
     platform := Api.detect_platform url0;
     download_type := Some VIDEO;
     output_dir := temp_dir;
     quality := "best";
     format := Some format_code;
     cookies_file := None;
     metadata := true;
     subtitles := false;
     thumbnail := true;
     sponsorblock := false;
     concurrent_fragments := 1;
     retries := 10;
     rate_limit := None;
     proxy := None |}.

(** [tempfile.mkdtemp()]: a new directory, at the path the system picks. *)
Definition mkdtemp (fresh : Path) : M Path :=
  fun w =>
    (Returned fresh,
     {| fs := fun q => if q =? fresh then Some Dir else fs w q;
        log := log w |}).

(** [shutil.rmtree(dir)]: the directory and all that is below it go. *)
Definition rmtree (dir : Path) : M unit :=
  fun w =>
    (Returned tt,
     {| fs := fun q =>
                if (q =? dir) || startswith (dir +++ "/") q then None
                else fs w q;
        log := log w |}).

(** What the engine leaves on disk while it runs. *)
Definition engine_writes (files : list Path) : M unit :=
  fun w =>
    (Returned tt,
     {| fs := fun q => if existsb (String.eqb q) files then Some File
                       else fs w q;
        log := log w |}).

(** [next((f for f in files if f.is_file()), None)] *)
Fixpoint first_file (fs : FS) (files : list Path) : option Path :=
  match files with
  | [] => None
  | f :: files' =>
      match fs f with
      | Some File => Some f
      | _ => first_file fs files'
      end
  end.

(** [POST /api/download].  [data] holds the [url] and [format_id] fields
    of the request body (or the exception raised while reading them);
    [fresh] is the directory [mkdtemp] creates; [written] are the files the
    engine leaves while [download] runs and [listing] what
    [temp_dir.rglob('*')] yields afterwards.  On success the directory is
    removed only when the response is closed.

    The handler passes the fields on as they are.  A URL that is not a
    string makes [detect_platform], the validation or the join of the
    command raise.  With a URL that is a string and a format that is not,
    the configuration is validated, which does not read the format, and
    [download] then raises at the join of line 198, before the command is
    logged and before any process is created.  In both cases the handler
    answers from its [except] clause, and the temporary directory stays. *)
Definition download_video
  (data : result (Field * Field)) (fresh : Path)
  (popen : list string -> Downloader.ProcessRun)
  (written listing : list Path) : M Response :=
  try_except
    (fields <- (match data with
                | Returned fields => ret fields
                | Raised e => raise e
                end) ;;
     let url0 := fst fields in
     let format_code := snd fields in
     if missing url0 || missing format_code then
       ret (400%Z, ErrorBody "Missing URL or format_id")
     else
       temp_dir <- mkdtemp fresh ;;
       match url0, format_code with
       | Text url0, Text format_code =>
           let config := download_config url0 format_code temp_dir in
           Downloader.validate_config config ;;;
           success <- Downloader.download popen config ;;
           engine_writes written ;;;
           if negb success then
             rmtree temp_dir ;;;
             ret (500%Z, ErrorBody "Download failed")
           else
             fs1 <- get_fs ;;
             match first_file fs1 listing with
             | None =>
                 rmtree temp_dir ;;;
                 ret (500%Z, ErrorBody "No video file found")
             | Some video_file => ret (200%Z, FileBody video_file)
             end
       | Text url0, Other _ misuse =>
           Downloader.validate_config (download_config url0 "" temp_dir) ;;;
           raise misuse
       | Other _ misuse, _ => raise misuse
       end)
    (fun e => ret (500%Z, ErrorBody (str_exn e))).

End Endpoints.

(* ================================================================== *)
(** * Sanity checks of the model on concrete inputs *)
(* ================================================================== *)

Lemma Platform_eqb_eq (a b : Platform) : Platform_eqb a b = true <-> a = b.
Proof. destruct a, b; simpl; split; congruence. Qed.

Example netloc_plain :
  Urllib.urlparse_netloc "https://www.youtube.com/watch?v=abc"
  = Returned "www.youtube.com".
Proof. reflexivity. Qed.

Example netloc_no_scheme :
  Urllib.urlparse_netloc "youtube.com/watch" = Returned "".
Proof. reflexivity. Qed.

Example netloc_userinfo :
  Urllib.urlparse_netloc "http://youtube.com@example.org/"
  = Returned "youtube.com@example.org".
Proof. reflexivity. Qed.

Example netloc_tab :
  Urllib.urlparse_netloc (" http://you" +++ String "009" "tube.com")
  = Returned "youtube.com".
Proof. reflexivity. Qed.

Example str_int_examples :
  str_int 10 = "10" /\ str_int 0 = "0" /\ str_int (-3) = "-3".
Proof. repeat split; reflexivity. Qed.

Example os_path_join_examples :
  os_path_join "/tmp/out" ["Video"; "%(title)s.%(ext)s"]
  = "/tmp/out/Video/%(title)s.%(ext)s"
  /\ os_path_join "" ["Video"; "t"] = "Video/t"
  /\ os_path_join "out/" ["Audio"; "t"] = "out/Audio/t".
Proof. repeat split; reflexivity. Qed.

Example ancestors_example :
  ancestors "/tmp/a/b" = ["/"; "/tmp"; "/tmp/a"]
  /\ ancestors "out/x" = ["out"].
Proof. split; reflexivity. Qed.

Example build_youtube_default :
  Downloader.build_yt_dlp_command no_files sample_config
  = [ "yt-dlp"; "--no-playlist"; "--ignore-errors"; "--retries"; "10";
      "--concurrent-fragments"; "1"; "--progress"; "--newline";
      "--console-title"; "-o"; "/tmp/out/Video/%(title)s [%(id)s].%(ext)s";
      "-f"; "bestvideo[ext=mp4]+bestaudio[ext=m4a]/best[ext=mp4]/best";
      "https://youtube.com/watch?v=abc" ].
Proof. reflexivity. Qed.

Example detect_examples :
  Downloader.detect_platform "https://www.youtube.com/watch?v=abc"
  = Returned YOUTUBE
  /\ Downloader.detect_platform "https://X.com/user/status/1"
     = Returned TWITTER
  /\ Downloader.detect_platform "https://example.org/" = Returned UNKNOWN.
Proof. repeat split; reflexivity. Qed.

(* ================================================================== *)
(** * Auxiliary facts on strings *)
(* ================================================================== *)

Lemma length_append (a b : string) :
  String.length (a +++ b) = String.length a + String.length b.
Proof. induction a as [|c a IH]; simpl; [reflexivity | now rewrite IH]. Qed.

Lemma str_int_number_text (n : Z) : number_text (str_int n) = true.
Proof.
  unfold str_int.
  destruct n as [|p|p]; simpl; [reflexivity | |];
    destruct (Pos.to_uint p); reflexivity.
Qed.

Lemma str_int_neq (n : Z) (s : string) :
  number_text s = false -> str_int n <> s.
Proof.
  intros Hs Heq. rewrite <- Heq, str_int_number_text in Hs. discriminate.
Qed.

Lemma os_path_join_length (a b c : string) :
  startswith "/" c = false ->
  String.length c <= String.length (os_path_join a [b; c]).
Proof.
  intros Hc. unfold os_path_join. cbn [fold_left]. rewrite Hc.
  repeat match goal with
  | |- context [if ?x then _ else _] => destruct x
  end; rewrite ?length_append; lia.
Qed.

Lemma template_length (config : DownloadConfig) :
  26 <= String.length (Downloader.get_output_template config).
Proof.
  unfold Downloader.get_output_template.
  assert (Hbase :
    startswith "/"
      (Downloader.dict_get Downloader.templates (platform config)
         "%(title)s [%(id)s].%(ext)s") = false
    /\ 26 <= String.length
         (Downloader.dict_get Downloader.templates (platform config)
            "%(title)s [%(id)s].%(ext)s")).
  { destruct (platform config); simpl; split; (reflexivity || lia). }
  destruct Hbase as [Hs Hl].
  destruct (is_AUDIO (download_type config));
    (eapply Nat.le_trans; [exact Hl | now apply os_path_join_length]).
Qed.

Lemma template_neq (config : DownloadConfig) (s : string) :
  String.length s < 26 -> Downloader.get_output_template config <> s.
Proof.
  intros Hs Heq. pose proof (template_length config) as H.
  rewrite Heq in H. lia.
Qed.

(* ================================================================== *)
(** * The command builder *)
(* ================================================================== *)

(** The options, laid out: the fixed flags, the template, the format
    selector (the configured one when it is a non-empty string, else the
    default), then rate limit and proxy when given. *)
Lemma command_options_shape (config : DownloadConfig) :
  Downloader.command_options config =
  [ "yt-dlp"; "--no-playlist"; "--ignore-errors";
    "--retries"; str_int (retries config);
    "--concurrent-fragments"; str_int (concurrent_fragments config);
    "--progress"; "--newline"; "--console-title";
    "-o"; Downloader.get_output_template config;
    "-f"; if_truthy (format config) (fun f => f)
            (Downloader.get_default_format config) ]
  ++ if_truthy (rate_limit config) (fun r => ["--limit-rate"; r]) []
  ++ if_truthy (proxy config) (fun p => ["--proxy"; p]) [].
Proof.
  unfold Downloader.command_options, if_truthy.
  destruct (format config) as [f|]; [destruct (f =? "")|];
    (destruct (rate_limit config) as [r|]; [destruct (r =? "")|]);
    (destruct (proxy config) as [p|]; [destruct (p =? "")|]);
    reflexivity.
Qed.

Lemma option_value_skip (flag a : string) (rest : list string) :
  a <> flag -> option_value flag (a :: rest) = option_value flag rest.
Proof. intros H. simpl. apply String.eqb_neq in H. now rewrite H. Qed.

(** The command is the options, the cookie arguments and the URL. *)
Lemma build_shape (fs : FS) (config : DownloadConfig) :
  Downloader.build_yt_dlp_command fs config =
  Downloader.command_options config
  ++ match (if set_and_exists fs (cookies_file config)
            then cookies_file config
            else if Platform_eqb (platform config) YOUTUBE
                    && path_exists fs Downloader.COOKIES_FILE
            then Some Downloader.COOKIES_FILE
            else None)
     with
     | Some c => ["--cookies"; c]
     | None =>
         if Platform_eqb (platform config) INSTAGRAM
         then ["--cookies-from-browser"; "chrome"]
         else []
     end
  ++ [url config].
Proof.
  unfold Downloader.build_yt_dlp_command. cbv zeta.
  match goal with
  | |- context [match ?c with Some _ => _ | None => _ end] => destruct c
  end; [| destruct (Platform_eqb (platform config) INSTAGRAM)];
    rewrite <- ?app_assoc; reflexivity.
Qed.

Lemma option_value_f_options (config : DownloadConfig) (more : list string) :
  option_value "-f" (Downloader.command_options config ++ more)
  = Some (if_truthy (format config) (fun f => f)
            (Downloader.get_default_format config)).
Proof.
  rewrite command_options_shape. rewrite <- app_assoc. cbn [app].
  do 4 (rewrite option_value_skip by discriminate).
  rewrite option_value_skip by (apply str_int_neq; reflexivity).
  rewrite option_value_skip by discriminate.
  rewrite option_value_skip by (apply str_int_neq; reflexivity).
  do 4 (rewrite option_value_skip by discriminate).
  rewrite option_value_skip by (apply template_neq; simpl; lia).
  reflexivity.
Qed.

Lemma option_value_f (fs : FS) (config : DownloadConfig) :
  option_value "-f" (Downloader.build_yt_dlp_command fs config)
  = Some (if_truthy (format config) (fun f => f)
            (Downloader.get_default_format config)).
Proof. rewrite build_shape. apply option_value_f_options. Qed.

(** A browser-cookie flag among the options can only be a string the caller
    supplied. *)
Lemma browser_flag_in_options (config : DownloadConfig) :
  In "--cookies-from-browser" (Downloader.command_options config) ->
  In "--cookies-from-browser" (caller_strings config).
Proof.
  rewrite command_options_shape. unfold caller_strings, if_truthy.
  intros H. apply in_app_or in H. destruct H as [H | H].
  - cbn [In] in H.
    repeat match type of H with
    | _ \/ _ => destruct H as [H | H]
    end; try discriminate; try contradiction.
    + exfalso. revert H. apply str_int_neq. reflexivity.
    + exfalso. revert H. apply str_int_neq. reflexivity.
    + exfalso. revert H. apply template_neq. simpl. lia.
    + destruct (format config) as [f|].
      * destruct (f =? ""); [| left; exact H].
        exfalso. revert H. unfold Downloader.get_default_format.
        destruct (is_AUDIO _); [discriminate|].
        destruct (platform config); discriminate.
      * exfalso. revert H. unfold Downloader.get_default_format.
        destruct (is_AUDIO _); [discriminate|].
        destruct (platform config); discriminate.
  - apply in_or_app. right. apply in_app_or in H. destruct H as [H | H].
    + apply in_or_app. left.
      destruct (rate_limit config) as [r|]; [destruct (r =? "")|];
        try contradiction.
      destruct H as [H | [H | []]]; [discriminate | left; exact H].
    + apply in_or_app. right. apply in_or_app. left.
      destruct (proxy config) as [p|]; [destruct (p =? "")|];
        try contradiction.
      destruct H as [H | [H | []]]; [discriminate | left; exact H].
Qed.

(** A command with an explicit existing cookie file ends with that file and
    the URL, whatever the platform. *)
Example build_instagram_cookies :
  Downloader.build_yt_dlp_command (with_files ["cookies.txt"]) instagram_config
  = [ "yt-dlp"; "--no-playlist"; "--ignore-errors"; "--retries"; "3";
      "--concurrent-fragments"; "4"; "--progress"; "--newline";
      "--console-title"; "-o";
      "out/Video/%(uploader)s - %(title)s [%(id)s].%(ext)s";
      "-f"; "22"; "--limit-rate"; "50K"; "--cookies"; "cookies.txt";
      "https://instagram.com/p/xyz" ].
Proof. reflexivity. Qed.

(** C2, as stated, fails: the same configuration gives two different
    commands on two file systems, one without and one with the default
    cookie file. *)
Lemma build_varies_with_files :
  Downloader.build_yt_dlp_command no_files sample_config
  <> Downloader.build_yt_dlp_command (with_files ["insta.txt"]) sample_config.
Proof. vm_compute. discriminate. Qed.

(** C2 (amended): the command is a function of the configuration and of
    the file system, which it only reads, at two paths: whether the
    configured cookie file exists and, for YouTube, whether the default
    cookie file exists.  Two file systems that agree there give the same
    command for the same configuration. *)
Theorem build_deterministic_up_to_cookie_files
  (fs1 fs2 : FS) (config : DownloadConfig) :
  set_and_exists fs1 (cookies_file config)
  = set_and_exists fs2 (cookies_file config) ->
  (platform config = YOUTUBE ->
   path_exists fs1 Downloader.COOKIES_FILE
   = path_exists fs2 Downloader.COOKIES_FILE) ->
  Downloader.build_yt_dlp_command fs1 config
  = Downloader.build_yt_dlp_command fs2 config.
Proof.
  intros Hset Hdefault. rewrite !build_shape. rewrite Hset.
  destruct (Platform_eqb (platform config) YOUTUBE) eqn:Hyt.
  - apply Platform_eqb_eq in Hyt. now rewrite (Hdefault Hyt).
  - reflexivity.
Qed.

Lemma build_deterministic_up_to_cookie_files_witness :
  Downloader.build_yt_dlp_command (with_files ["cookies.txt"]) instagram_config
  = Downloader.build_yt_dlp_command
      (with_files ["cookies.txt"; "insta.txt"; "other"]) instagram_config.
Proof.
  apply build_deterministic_up_to_cookie_files.
  - reflexivity.
  - discriminate.
Defined.

(** C4, as stated, fails: an Instagram configuration whose cookie file is
    set and exists, and whose URL is the string [--cookies-from-browser],
    passes validation, and the command built for it contains
    [--cookies-from-browser] (as its last argument). *)
Lemma browser_flag_from_url :
  cookies_file flag_url_config = Some "cookies.txt"
  /\ path_exists (with_files ["cookies.txt"]) "cookies.txt" = true
  /\ fst (Downloader.validate_config flag_url_config
            {| fs := with_files ["cookies.txt"]; log := [] |})
     = Returned tt
  /\ In "--cookies-from-browser"
       (Downloader.build_yt_dlp_command (with_files ["cookies.txt"])
          flag_url_config)
  /\ last (Downloader.build_yt_dlp_command (with_files ["cookies.txt"])
             flag_url_config) ""
     = "--cookies-from-browser".
Proof.
  split; [reflexivity |]. split; [reflexivity |]. split; [reflexivity |].
  split; [| reflexivity].
  vm_compute. do 18 right. left. reflexivity.
Qed.

(** C4 (amended): with an explicit cookie file that exists, the command is
    the options, [--cookies] and that path, and the URL, on every platform;
    the builder adds no browser-cookie flag to it: the string
    [--cookies-from-browser] occurs in it only if the caller supplied that
    very string as format, rate limit, proxy, cookie path or URL.  Otherwise
    the default cookie file is used for YouTube when it exists; otherwise
    Instagram gets the browser-cookie flag; otherwise there is no cookie
    argument. *)
Theorem cookie_precedence (fs : FS) (config : DownloadConfig) :
  (forall p,
      cookies_file config = Some p -> path_exists fs p = true ->
      Downloader.build_yt_dlp_command fs config
      = Downloader.command_options config ++ ["--cookies"; p; url config]
      /\ (~ In "--cookies-from-browser" (caller_strings config) ->
          ~ In "--cookies-from-browser"
              (Downloader.build_yt_dlp_command fs config)))
  /\ (set_and_exists fs (cookies_file config) = false ->
      platform config = YOUTUBE ->
      path_exists fs Downloader.COOKIES_FILE = true ->
      Downloader.build_yt_dlp_command fs config
      = Downloader.command_options config
        ++ ["--cookies"; "insta.txt"; url config])
  /\ (set_and_exists fs (cookies_file config) = false ->
      platform config = INSTAGRAM ->
      Downloader.build_yt_dlp_command fs config
      = Downloader.command_options config
        ++ ["--cookies-from-browser"; "chrome"; url config])
  /\ (set_and_exists fs (cookies_file config) = false ->
      (platform config = YOUTUBE ->
       path_exists fs Downloader.COOKIES_FILE = false) ->
      platform config <> INSTAGRAM ->
      Downloader.build_yt_dlp_command fs config
      = Downloader.command_options config ++ [url config]).
Proof.
  split; [| split; [| split]].
  - intros p Hset Hexists.
    assert (Hcmd :
      Downloader.build_yt_dlp_command fs config
      = Downloader.command_options config ++ ["--cookies"; p; url config]).
    { rewrite build_shape. unfold set_and_exists.
      rewrite Hset, Hexists. reflexivity. }
    split; [exact Hcmd |].
    intros Hcaller Hin. apply Hcaller. rewrite Hcmd in Hin.
    apply in_app_or in Hin. destruct Hin as [Hin | Hin].
    + now apply browser_flag_in_options.
    + unfold caller_strings. rewrite Hset.
      do 3 (apply in_or_app; right).
      destruct Hin as [Hin | [Hin | [Hin | []]]];
        [discriminate | left; exact Hin | right; left; exact Hin].
  - intros Hset Hyt Hdef. rewrite build_shape, Hset, Hyt, Hdef. reflexivity.
  - intros Hset Hig. rewrite build_shape, Hset, Hig. reflexivity.
  - intros Hset Hdef Hig. rewrite build_shape, Hset.
    destruct (Platform_eqb (platform config) YOUTUBE) eqn:Hyt.
    + apply Platform_eqb_eq in Hyt. rewrite (Hdef Hyt). simpl.
      rewrite Hyt. reflexivity.
    + simpl. destruct (Platform_eqb (platform config) INSTAGRAM) eqn:Hi.
      * apply Platform_eqb_eq in Hi. contradiction.
      * reflexivity.
Qed.

Lemma cookie_precedence_witness :
  Downloader.build_yt_dlp_command (with_files ["cookies.txt"]) instagram_config
  = Downloader.command_options instagram_config
    ++ ["--cookies"; "cookies.txt"; "https://instagram.com/p/xyz"]
  /\ ~ In "--cookies-from-browser"
       (Downloader.build_yt_dlp_command (with_files ["cookies.txt"])
          instagram_config).
Proof.
  destruct (cookie_precedence (with_files ["cookies.txt"]) instagram_config)
    as [Hexplicit _].
  destruct (Hexplicit "cookies.txt" eq_refl eq_refl) as [Hcmd Hflag].
  split; [exact Hcmd |].
  apply Hflag. vm_compute. intuition discriminate.
Defined.

(** C5, as stated, fails: a format that is set to the empty string is not
    used; the default selector is. *)
Lemma empty_format_not_verbatim :
  format empty_format_config = Some ""
  /\ option_value "-f"
       (Downloader.build_yt_dlp_command no_files empty_format_config)
     = Some "bestvideo[ext=mp4]+bestaudio[ext=m4a]/best[ext=mp4]/best"
  /\ option_value "-f"
       (Downloader.build_yt_dlp_command no_files empty_format_config)
     <> format empty_format_config.
Proof.
  split; [reflexivity |]. split; [reflexivity |].
  vm_compute. discriminate.
Qed.

(** C5 (amended): if [config.format] is set to a non-empty string, the
    command's [-f] value is exactly that string; otherwise (unset, or the
    empty string) it is ["bestaudio/best"] when the download type is AUDIO,
    on every platform; the YouTube chain when the platform is YOUTUBE and
    the type is not AUDIO; and ["best"] for every other platform. *)
Theorem format_selector_resolution (fs : FS) (config : DownloadConfig) :
  (forall f,
      format config = Some f -> f <> "" ->
      option_value "-f" (Downloader.build_yt_dlp_command fs config) = Some f)
  /\ (format config = None \/ format config = Some "" ->
      (download_type config = Some AUDIO ->
       option_value "-f" (Downloader.build_yt_dlp_command fs config)
       = Some "bestaudio/best")
      /\ (download_type config <> Some AUDIO ->
          platform config = YOUTUBE ->
          option_value "-f" (Downloader.build_yt_dlp_command fs config)
          = Some "bestvideo[ext=mp4]+bestaudio[ext=m4a]/best[ext=mp4]/best")
      /\ (download_type config <> Some AUDIO ->
          platform config <> YOUTUBE ->
          option_value "-f" (Downloader.build_yt_dlp_command fs config)
          = Some "best")).
Proof.
  split.
  - intros f Hf Hne. rewrite option_value_f, Hf. unfold if_truthy.
    apply String.eqb_neq in Hne. now rewrite Hne.
  - intros Hunset.
    assert (Hdefault :
      option_value "-f" (Downloader.build_yt_dlp_command fs config)
      = Some (Downloader.get_default_format config)).
    { rewrite option_value_f. now destruct Hunset as [-> | ->]. }
    rewrite Hdefault. unfold Downloader.get_default_format.
    repeat split.
    + intros ->. reflexivity.
    + intros Hty ->.
      destruct (download_type config) as [[]|]; try reflexivity.
      now contradiction Hty.
    + intros Hty Hpl.
      destruct (download_type config) as [[]|];
        try (now contradiction Hty);
        destruct (platform config); try reflexivity; now contradiction Hpl.
Qed.

Lemma format_selector_resolution_witness :
  option_value "-f"
    (Downloader.build_yt_dlp_command (with_files ["cookies.txt"])
       instagram_config) = Some "22"
  /\ option_value "-f"
       (Downloader.build_yt_dlp_command no_files empty_format_config)
     = Some "bestvideo[ext=mp4]+bestaudio[ext=m4a]/best[ext=mp4]/best".
Proof.
  split.
  - apply (proj1 (format_selector_resolution _ instagram_config) "22").
    + reflexivity.
    + discriminate.
  - apply (proj2 (format_selector_resolution _ empty_format_config)).
    + right. reflexivity.
    + discriminate.
    + reflexivity.
Defined.

(** C10: two configurations that differ only in [quality], [metadata],
    [subtitles], [thumbnail] and [sponsorblock] give the same command. *)
Theorem build_ignores_presentation_fields
  (fs : FS) (c1 c2 : DownloadConfig) :
  url c1 = url c2 ->
  platform c1 = platform c2 ->
  download_type c1 = download_type c2 ->
  output_dir c1 = output_dir c2 ->
  format c1 = format c2 ->
  cookies_file c1 = cookies_file c2 ->
  concurrent_fragments c1 = concurrent_fragments c2 ->
  retries c1 = retries c2 ->
  rate_limit c1 = rate_limit c2 ->
  proxy c1 = proxy c2 ->
  Downloader.build_yt_dlp_command fs c1 = Downloader.build_yt_dlp_command fs c2.
Proof.
  destruct c1, c2. simpl. intros. subst. reflexivity.
Qed.

Lemma build_ignores_presentation_fields_witness :
  quality sample_config <> quality sample_config_presentation
  /\ metadata sample_config <> metadata sample_config_presentation
  /\ subtitles sample_config <> subtitles sample_config_presentation
  /\ thumbnail sample_config <> thumbnail sample_config_presentation
  /\ sponsorblock sample_config <> sponsorblock sample_config_presentation
  /\ Downloader.build_yt_dlp_command (with_files ["insta.txt"]) sample_config
     = Downloader.build_yt_dlp_command (with_files ["insta.txt"])
         sample_config_presentation.
Proof.
  do 5 (split; [discriminate |]).
  apply build_ignores_presentation_fields; reflexivity.
Defined.

(* ================================================================== *)
(** * Validation *)
(* ================================================================== *)

(** Validation of a supported platform creates the missing output
    directory and its ancestors. *)
Example validate_creates_output_dir :
  let w := {| fs := no_files; log := [] |} in
  fst (Downloader.validate_config sample_config w) = Returned tt
  /\ map (path_exists (fs (snd (Downloader.validate_config sample_config w))))
       ["/"; "/tmp"; "/tmp/out"; "/tmp/other"]
     = [true; true; true; false].
Proof. split; reflexivity. Qed.

(** C6: a configuration with a non-empty URL and the UNKNOWN platform fails
    validation with the unsupported-URL error, and the world (hence the
    file system: no output directory is created) is left as it was; more
    generally validation changes nothing unless the URL is non-empty and
    the platform is not UNKNOWN. *)
Theorem unknown_platform_rejected_before_mkdir
  (config : DownloadConfig) (w : World) :
  url config <> "" ->
  platform config = UNKNOWN ->
  Downloader.validate_config config w
  = (Raised (ValueError ("Unsupported URL: " +++ url config)), w)
  /\ forall config' w',
       snd (Downloader.validate_config config' w') <> w' ->
       url config' <> "" /\ platform config' <> UNKNOWN.
Proof.
  intros Hurl Hplatform. split.
  - unfold Downloader.validate_config.
    apply String.eqb_neq in Hurl. rewrite Hurl, Hplatform. reflexivity.
  - intros config' w' Hchanged. unfold Downloader.validate_config in Hchanged.
    destruct (url config' =? "") eqn:Hu.
    + now contradiction Hchanged.
    + destruct (Platform_eqb (platform config') UNKNOWN) eqn:Hp.
      * now contradiction Hchanged.
      * split.
        -- now apply String.eqb_neq.
        -- intros Heq. rewrite Heq in Hp. discriminate.
Qed.

Lemma unknown_platform_rejected_before_mkdir_witness :
  let config :=
    {| url := "https://example.org/video"; platform := UNKNOWN;
       download_type := None; output_dir := "/tmp/out"; quality := "best";
       format := None; cookies_file := None; metadata := true;
       subtitles := false; thumbnail := true; sponsorblock := false;
       concurrent_fragments := 1; retries := 10; rate_limit := None;
       proxy := None |} in
  let w := {| fs := no_files; log := [] |} in
  Downloader.validate_config config w
  = (Raised (ValueError "Unsupported URL: https://example.org/video"), w)
  /\ path_exists (fs (snd (Downloader.validate_config config w))) "/tmp/out"
     = false.
Proof.
  intros config w.
  destruct (unknown_platform_rejected_before_mkdir config w) as [Hfail _].
  - discriminate.
  - reflexivity.
  - split; [exact Hfail |]. rewrite Hfail. reflexivity.
Defined.

(* ================================================================== *)
(** * Single download *)
(* ================================================================== *)

Lemma log_progress_returns (lines : list string) (w : World) :
  exists w',
    Downloader.log_progress lines w = (Returned tt, w') /\ fs w' = fs w.
Proof.
  revert w. induction lines as [|line lines IH]; intros w.
  - exists w. split; reflexivity.
  - simpl. unfold bind.
    destruct (strip line =? "").
    + unfold ret. apply IH.
    + unfold logger.
      destruct (IH {| fs := fs w; log := log w ++ [(INFO, strip line)] |})
        as [w' [Hrun Hfs]].
      exists w'. split; [exact Hrun | exact Hfs].
Qed.

(** A process that prints two lines and exits with status zero, one that
    exits with status one, and an executable that cannot be started. *)
Example download_outcomes :
  let w := {| fs := no_files; log := [] |} in
  fst (Downloader.download
         (fun _ => Downloader.Exits ["[download] 50%"; "  "] 0 (Returned ""))
         sample_config w) = Returned true
  /\ fst (Downloader.download
            (fun _ => Downloader.Exits [] 1 (Returned "ERROR: unavailable"))
            sample_config w) = Returned false
  /\ fst (Downloader.download
            (fun _ => Downloader.SpawnFails
                        (FileNotFoundError "No such file: yt-dlp"))
            sample_config w) = Returned false
  /\ map snd
       (log (snd (Downloader.download
                    (fun _ => Downloader.Exits ["[download] 50%"; "  "] 1
                                (Returned "ERROR: unavailable"))
                    sample_config w)))
     = [ "Executing command: yt-dlp --no-playlist --ignore-errors --retries 10 --concurrent-fragments 1 --progress --newline --console-title -o /tmp/out/Video/%(title)s [%(id)s].%(ext)s -f bestvideo[ext=mp4]+bestaudio[ext=m4a]/best[ext=mp4]/best https://youtube.com/watch?v=abc";
         "[download] 50%";
         "Download failed with error: ERROR: unavailable" ].
Proof. repeat split; reflexivity. Qed.

(** C7, as stated, fails: a process whose output cannot be decoded makes
    the read raise; the process exits with status zero, and [download]
    returns false. *)
Lemma download_false_though_exit_zero :
  exit_status
    (undecodable_run
       (Downloader.build_yt_dlp_command (fs empty_world) sample_config))
  = Some 0%Z
  /\ fst (Downloader.download undecodable_run sample_config empty_world)
     = Returned false.
Proof. split; reflexivity. Qed.

(** C7 (amended): for a configuration whose fields have their declared
    types and a run of the process that comes back, [download] never
    raises; it returns true exactly when the process was created, its
    output was read to the end, it was waited for and its exit status is
    zero; it returns false when the process cannot be created, when it
    exits with a non-zero status, and when reading its output or waiting
    for it raises, whatever the status with which the process then ends. *)
Theorem download_true_iff_waited_exit_zero
  (popen : list string -> Downloader.ProcessRun)
  (config : DownloadConfig) (w : World) :
  let cmd := Downloader.build_yt_dlp_command (fs w) config in
  exists b : bool,
    fst (Downloader.download popen config w) = Returned b
    /\ (b = true <->
        exists lines stderr, popen cmd = Downloader.Exits lines 0 stderr)
    /\ (forall e, popen cmd = Downloader.SpawnFails e -> b = false)
    /\ (forall lines returncode stderr,
           popen cmd = Downloader.Exits lines returncode stderr ->
           returncode <> 0%Z -> b = false)
    /\ (forall lines e exited,
           popen cmd = Downloader.RunFails lines e exited -> b = false).
Proof.
  intros cmd. unfold Downloader.download, bind, get_fs, try_except.
  cbn [logger fs log]. fold cmd.
  set (w1 := {| fs := fs w; log := _ |}).
  destruct (popen cmd) as [e | lines e exited | lines returncode stderr] eqn:Hrun.
  - exists false. split; [unfold raise; destruct e; reflexivity |].
    split; [| split; [| split]].
    + split; [discriminate | intros [l [s Hx]]; discriminate].
    + reflexivity.
    + reflexivity.
    + reflexivity.
  - exists false. split.
    { destruct (log_progress_returns lines w1) as [w2 [Hlog _]].
      rewrite Hlog. unfold raise. destruct e; reflexivity. }
    split; [| split; [| split]].
    + split; [discriminate | intros [l [s Hx]]; discriminate].
    + reflexivity.
    + reflexivity.
    + reflexivity.
  - destruct (log_progress_returns lines w1) as [w2 [Hlog _]].
    rewrite Hlog.
    destruct (returncode =? 0)%Z eqn:Hrc.
    + apply Z.eqb_eq in Hrc. subst returncode.
      exists true. split; [reflexivity |]. split; [| split; [| split]].
      * split; [intros _; now exists lines, stderr | reflexivity].
      * discriminate.
      * intros l rc s Hx Hnz. injection Hx as _ <- _. now contradiction Hnz.
      * discriminate.
    + apply Z.eqb_neq in Hrc.
      exists false. split.
      { cbn [negb]. destruct stderr as [s | e]; [reflexivity |].
        unfold raise. destruct e; reflexivity. }
      split; [| split; [| split]].
      * split; [discriminate |].
        intros [l [s Hx]]. injection Hx as _ Hz _. now contradiction Hrc.
      * reflexivity.
      * reflexivity.
      * reflexivity.
Qed.

Lemma download_true_iff_waited_exit_zero_witness :
  fst (Downloader.download
         (fun _ => Downloader.Exits ["[download] 100%"] 0 (Returned ""))
         sample_config empty_world) = Returned true.
Proof.
  destruct (download_true_iff_waited_exit_zero
              (fun _ => Downloader.Exits ["[download] 100%"] 0 (Returned ""))
              sample_config empty_world) as [b [Hret [Hiff _]]].
  rewrite Hret. f_equal. apply Hiff.
  exists ["[download] 100%"], (Returned ""). reflexivity.
Defined.

(* ================================================================== *)
(** * Batch download *)
(* ================================================================== *)

Section Dict.

Import BatchDownloader.

Lemma keys_dict_set (k : string) (v : bool) (d : dict) :
  keys (dict_set k v d)
  = if in_dec string_dec k (keys d) then keys d else keys d ++ [k].
Proof.
  unfold keys. induction d as [|[k' v'] d IH]; simpl.
  - reflexivity.
  - destruct (String.eqb_spec k k') as [-> | Hne].
    + destruct (string_dec k' k') as [He | Hn];
        [reflexivity | now contradiction Hn].
    + simpl. rewrite IH.
      destruct (string_dec k' k) as [Heq | Hn];
        [symmetry in Heq; now contradiction Hne |].
      destruct (in_dec string_dec k (map fst d)); reflexivity.
Qed.

Lemma dict_lookup_set_same (k : string) (v : bool) (d : dict) :
  dict_lookup k (dict_set k v d) = Some v.
Proof.
  induction d as [|[k' v'] d IH]; simpl.
  - now rewrite String.eqb_refl.
  - destruct (k =? k') eqn:Hk; simpl; rewrite Hk; [reflexivity | exact IH].
Qed.

Lemma dict_lookup_set_other (k k' : string) (v : bool) (d : dict) :
  k' <> k -> dict_lookup k' (dict_set k v d) = dict_lookup k' d.
Proof.
  intros Hne. induction d as [|[k0 v0] d IH]; simpl.
  - apply String.eqb_neq in Hne. now rewrite Hne.
  - destruct (String.eqb_spec k k0) as [-> | Hk]; simpl.
    + apply String.eqb_neq in Hne. now rewrite Hne.
    + destruct (k' =? k0); [reflexivity | exact IH].
Qed.

Lemma NoDup_keys_dict_set (k : string) (v : bool) (d : dict) :
  NoDup (keys d) -> NoDup (keys (dict_set k v d)).
Proof.
  intros Hd. rewrite keys_dict_set.
  destruct (in_dec string_dec k (keys d)) as [Hin | Hout]; [exact Hd |].
  apply NoDup_app; [exact Hd | repeat constructor; intros [] | ].
  intros x Hx [<- | []]. contradiction.
Qed.

Lemma In_keys_dict_set (k u : string) (v : bool) (d : dict) :
  In u (keys (dict_set k v d)) <-> u = k \/ In u (keys d).
Proof.
  rewrite keys_dict_set.
  destruct (in_dec string_dec k (keys d)) as [Hin | Hout].
  - split; [now right | intros [-> | H]; assumption].
  - rewrite in_app_iff. simpl. intuition congruence.
Qed.

Lemma record_all_cons (urls : list string) (outcome : nat -> result bool)
  (i : nat) (l : list nat) (d : dict) :
  record_all urls outcome (i :: l) d
  = record_all urls outcome l
      match nth_error urls i with
      | None => d
      | Some u => dict_set u (recorded (outcome i)) d
      end.
Proof. reflexivity. Qed.

(** The loop never raises, leaves the file system alone, and computes the
    fold. *)
Lemma collect_record_all (urls : list string) (outcome : nat -> result bool)
  (yielded : list nat) :
  forall (results : dict) (w : World),
  exists w',
    collect urls outcome yielded results w
    = (Returned (record_all urls outcome yielded results), w')
    /\ fs w' = fs w.
Proof.
  induction yielded as [|future yielded IH]; intros results w.
  - exists w. split; reflexivity.
  - cbn [collect]. rewrite record_all_cons.
    destruct (nth_error urls future) as [u|]; [| apply IH].
    unfold bind, try_except.
    destruct (outcome future) as [b | e]; cbn [recorded].
    + unfold ret. apply IH.
    + unfold raise, logger, ret.
      match goal with
      | |- context [collect _ _ _ _ ?w1] =>
          destruct (IH (dict_set u false results) w1) as [w' [Hrun Hfs]]
      end.
      exists w'. split; [exact Hrun | exact Hfs].
Qed.

Lemma record_all_app (urls : list string) (outcome : nat -> result bool)
  (l1 l2 : list nat) (d : dict) :
  record_all urls outcome (l1 ++ l2) d
  = record_all urls outcome l2 (record_all urls outcome l1 d).
Proof. unfold record_all. apply fold_left_app. Qed.

Lemma record_all_NoDup (urls : list string) (outcome : nat -> result bool)
  (yielded : list nat) :
  forall d, NoDup (keys d) -> NoDup (keys (record_all urls outcome yielded d)).
Proof.
  induction yielded as [|i yielded IH]; intros d Hd; [exact Hd |].
  rewrite record_all_cons.
  apply IH. destruct (nth_error urls i); [| exact Hd].
  now apply NoDup_keys_dict_set.
Qed.

Lemma record_all_keys (urls : list string) (outcome : nat -> result bool)
  (yielded : list nat) (u : string) :
  forall d,
    In u (keys (record_all urls outcome yielded d))
    <-> In u (keys d)
        \/ exists i, In i yielded /\ nth_error urls i = Some u.
Proof.
  induction yielded as [|i yielded IH]; intros d.
  - simpl. split; [now left | intros [H | [i [[] _]]]; exact H].
  - rewrite record_all_cons, IH.
    destruct (nth_error urls i) as [ui|] eqn:Hi.
    + rewrite In_keys_dict_set. split.
      * intros [[-> | H] | [j [Hj Hu]]].
        -- right. exists i. split; [now left | exact Hi].
        -- now left.
        -- right. exists j. split; [now right | exact Hu].
      * intros [H | [j [[<- | Hj] Hu]]].
        -- left. now right.
        -- left. left. congruence.
        -- right. exists j. split; assumption.
    + split.
      * intros [H | [j [Hj Hu]]]; [now left |].
        right. exists j. split; [now right | exact Hu].
      * intros [H | [j [[<- | Hj] Hu]]]; [now left | congruence |].
        right. exists j. split; assumption.
Qed.

Lemma record_all_lookup_untouched (urls : list string)
  (outcome : nat -> result bool) (u : string) (after : list nat) :
  (forall j, In j after -> nth_error urls j <> Some u) ->
  forall d,
    dict_lookup u (record_all urls outcome after d) = dict_lookup u d.
Proof.
  induction after as [|j after IH]; intros Hafter d; [reflexivity |].
  rewrite record_all_cons.
  rewrite IH by (intros k Hk; apply Hafter; now right).
  destruct (nth_error urls j) as [uj|] eqn:Hj; [| reflexivity].
  apply dict_lookup_set_other. intros ->.
  apply (Hafter j); [now left | exact Hj].
Qed.

Lemma record_all_lookup_last (urls : list string)
  (outcome : nat -> result bool) (yielded : list nat) (u : string)
  (i : nat) (d : dict) :
  last_yielded_for urls yielded u i ->
  dict_lookup u (record_all urls outcome yielded d)
  = Some (recorded (outcome i)).
Proof.
  intros [Hi [before [after [-> Hafter]]]].
  rewrite record_all_app.
  change (i :: after) with ([i] ++ after). rewrite record_all_app.
  rewrite record_all_lookup_untouched by exact Hafter.
  rewrite record_all_cons. cbn [record_all fold_left]. rewrite Hi.
  apply dict_lookup_set_same.
Qed.

Lemma last_yielded_exists (urls : list string) (u : string)
  (yielded : list nat) :
  (exists i, In i yielded /\ nth_error urls i = Some u) ->
  exists i, last_yielded_for urls yielded u i.
Proof.
  induction yielded as [|j yielded IH]; intros [i [Hin Hu]].
  - destruct Hin.
  - assert (Hdec :
      (exists k, In k yielded /\ nth_error urls k = Some u)
      \/ forall k, In k yielded -> nth_error urls k <> Some u).
    { clear. induction yielded as [|k l IHl].
      - right. intros k [].
      - destruct IHl as [[k' [Hk' Hu']] | Hnone].
        + left. exists k'. split; [now right | exact Hu'].
        + destruct (nth_error urls k) as [uk|] eqn:Hk.
          * destruct (string_dec uk u) as [-> | Hne].
            -- left. exists k. split; [now left | exact Hk].
            -- right. intros k' [<- | Hk']; [congruence | now apply Hnone].
          * right. intros k' [<- | Hk']; [congruence | now apply Hnone]. }
    destruct Hdec as [Hsome | Hnone].
    + destruct (IH Hsome) as [k [Hk [before [after [-> Hafter]]]]].
      exists k. split; [exact Hk |].
      exists (j :: before), after. split; [reflexivity | exact Hafter].
    + destruct Hin as [<- | Hin].
      * exists j. split; [exact Hu |].
        exists [], yielded. split; [reflexivity | exact Hnone].
      * exfalso. exact (Hnone i Hin Hu).
Qed.

End Dict.

Lemma yielded_unit_iff (urls : list string) (yielded : list nat)
  (u : string) :
  Permutation yielded (seq 0 (List.length urls)) ->
  (exists i, In i yielded /\ nth_error urls i = Some u) <-> In u urls.
Proof.
  intros Hperm. split.
  - intros [i [_ Hi]]. eapply nth_error_In, Hi.
  - intros Hin. destruct (In_nth_error _ _ Hin) as [i Hi].
    exists i. split; [| exact Hi].
    apply (Permutation_in i (Permutation_sym Hperm)).
    apply in_seq. split; [lia |].
    simpl. apply nth_error_Some. congruence.
Qed.

(** Two URLs submitted twice and once; the unit of the second raises. *)
Example batch_with_duplicate :
  fst (BatchDownloader.download_batch ["a"; "b"; "a"] 2
         (fun i => match i with
                   | 0 => Returned true
                   | 1 => Raised (ValueError "Unsupported URL: b")
                   | _ => Returned false
                   end)
         [1; 0; 2] empty_world)
  = Returned [("b", false); ("a", false)].
Proof. reflexivity. Qed.

(** A unit against a generic template: the platform is detected per URL;
    an unsupported URL and a URL that [urlparse] rejects make the unit
    raise, which the batch records as false. *)
Example unit_outcomes :
  let template :=
    {| url := ""; platform := UNKNOWN; download_type := None;
       output_dir := "downloads"; quality := "best"; format := None;
       cookies_file := None; metadata := false; subtitles := false;
       thumbnail := false; sponsorblock := false; concurrent_fragments := 1;
       retries := 10; rate_limit := None; proxy := None |} in
  let popen := fun _ => Downloader.Exits [] 0 (Returned "") in
  fst (BatchDownloader._download_single popen
         "https://vimeo.com/1" template empty_world) = Returned true
  /\ fst (BatchDownloader._download_single popen
            "https://example.org/1" template empty_world)
     = Raised (ValueError "Unsupported URL: https://example.org/1")
  /\ fst (BatchDownloader._download_single popen
            "http://[" template empty_world)
     = Raised (ValueError "Invalid IPv6 URL").
Proof. repeat split; reflexivity. Qed.

(** C3, as stated, fails: with a pool of size zero (the command line
    accepts [--workers 0]) the pool cannot be created, and the batch raises
    before any unit is submitted: no mapping is returned, though the only
    unit would succeed. *)
Lemma batch_raises_without_workers :
  BatchDownloader.download_batch ["a"] 0 (fun _ => Returned true) [0]
    empty_world
  = (Raised (ValueError "max_workers must be greater than 0"), empty_world)
  /\ ~ exists results w',
        BatchDownloader.download_batch ["a"] 0 (fun _ => Returned true) [0]
          empty_world
        = (Returned results, w').
Proof.
  split; [reflexivity |].
  intros [results [w' H]]. discriminate H.
Qed.

(** C3 (amended): with a pool size that is not positive, [download_batch]
    raises [ValueError] and nothing else happens.  With a pool of at least
    one worker, for every list of URLs, every behaviour of units that all
    finish and every order in which [as_completed] yields their futures,
    it returns a mapping whose keys are exactly the distinct input URLs,
    each once; the value under a URL is what the unit yielded last for it
    gave, an exception counting as false; so a unit that raises, when it is
    the only one for its URL, leaves false under that URL, and changes
    nothing for the others. *)
Theorem batch_mapping_complete (urls : list string) (max_workers : Z)
  (outcome : nat -> result bool) (yielded : list nat) (w : World) :
  ((max_workers <= 0)%Z ->
   BatchDownloader.download_batch urls max_workers outcome yielded w
   = (Raised (ValueError "max_workers must be greater than 0"), w))
  /\ ((0 < max_workers)%Z ->
      Permutation yielded (seq 0 (List.length urls)) ->
      exists results w',
        BatchDownloader.download_batch urls max_workers outcome yielded w
        = (Returned results, w')
        /\ NoDup (BatchDownloader.keys results)
        /\ (forall u, In u (BatchDownloader.keys results) <-> In u urls)
        /\ (forall u, In u urls ->
              exists i,
                last_yielded_for urls yielded u i
                /\ BatchDownloader.dict_lookup u results
                   = Some (recorded (outcome i)))
        /\ (forall i u e,
              nth_error urls i = Some u ->
              outcome i = Raised e ->
              (forall j, nth_error urls j = Some u -> j = i) ->
              BatchDownloader.dict_lookup u results = Some false)).
Proof.
  split.
  { intros Hpool. unfold BatchDownloader.download_batch.
    apply Z.leb_le in Hpool. rewrite Hpool. reflexivity. }
  intros Hpool Hperm. unfold BatchDownloader.download_batch.
  apply Z.leb_gt in Hpool. rewrite Hpool.
  destruct (collect_record_all urls outcome yielded [] w)
    as [w' [Hrun _]].
  exists (record_all urls outcome yielded []), w'.
  assert (Hlast : forall u, In u urls ->
            exists i,
              last_yielded_for urls yielded u i
              /\ BatchDownloader.dict_lookup u
                   (record_all urls outcome yielded [])
                 = Some (recorded (outcome i))).
  { intros u Hu. apply (yielded_unit_iff urls yielded u Hperm) in Hu.
    destruct (last_yielded_exists urls u yielded Hu) as [i Hi].
    exists i. split; [exact Hi | now apply record_all_lookup_last]. }
  split; [exact Hrun |]. split; [| split; [| split]].
  - apply record_all_NoDup. constructor.
  - intros u. rewrite record_all_keys.
    rewrite (yielded_unit_iff urls yielded u Hperm).
    simpl. tauto.
  - exact Hlast.
  - intros i u e Hi He Honly.
    destruct (Hlast u (nth_error_In _ _ Hi)) as [i' [[Hi' _] Hlook]].
    rewrite (Honly i' Hi'), He in Hlook. exact Hlook.
Qed.

Lemma batch_mapping_complete_witness :
  exists results w',
    BatchDownloader.download_batch ["a"; "b"; "a"] 2
      (fun i => match i with
                | 0 => Returned true
                | 1 => Raised (ValueError "Unsupported URL: b")
                | _ => Returned false
                end)
      [1; 0; 2] empty_world
    = (Returned results, w')
    /\ NoDup (BatchDownloader.keys results)
    /\ (forall u, In u (BatchDownloader.keys results) <-> In u ["a"; "b"; "a"])
    /\ BatchDownloader.dict_lookup "b" results = Some false.
Proof.
  destruct (proj2 (batch_mapping_complete ["a"; "b"; "a"] 2
              (fun i => match i with
                        | 0 => Returned true
                        | 1 => Raised (ValueError "Unsupported URL: b")
                        | _ => Returned false
                        end)
              [1; 0; 2] empty_world))
    as [results [w' [Hrun [Hnodup [Hkeys [_ Hraise]]]]]].
  - reflexivity.
  - simpl. apply perm_swap.
  - exists results, w'. repeat (split; [assumption |]).
    apply (Hraise 1 "b" (ValueError "Unsupported URL: b")).
    + reflexivity.
    + reflexivity.
    + intros [|[|[|j]]]; simpl; try discriminate; try reflexivity.
      destruct j; discriminate.
Defined.

(* ================================================================== *)
(** * The summary *)
(* ================================================================== *)

Lemma filter_all_length {A : Type} (f : A -> bool) (l : list A) :
  List.length l <= List.length (filter f l) ->
  filter (fun x => negb (f x)) l = [].
Proof.
  induction l as [|x l IH]; simpl; [reflexivity |].
  pose proof (filter_length_le f l) as Hle.
  destruct (f x); simpl; intros H.
  - apply IH. lia.
  - lia.
Qed.

(** The failed URLs of the summary are the keys with a false value, in the
    order of the mapping. *)
Lemma failed_urls_summary (results : BatchDownloader.dict) :
  BatchDownloader.failed_urls (BatchDownloader.summary results)
  = map fst (filter (fun r => negb (snd r)) results).
Proof.
  unfold BatchDownloader.summary. cbn [BatchDownloader.failed_urls].
  destruct (Nat.ltb_spec (List.length (filter (fun r => snd r) results))
              (List.length results)) as [Hlt | Hge]; [reflexivity |].
  now rewrite (filter_all_length (fun r => snd r) results Hge).
Qed.

Lemma dict_set_fresh (k : string) (v : bool) (d : BatchDownloader.dict) :
  ~ In k (BatchDownloader.keys d) ->
  BatchDownloader.dict_set k v d = d ++ [(k, v)].
Proof.
  induction d as [|[k' v'] d IH]; simpl; intros Hk; [reflexivity |].
  destruct (String.eqb_spec k k') as [-> | Hne].
  - exfalso. apply Hk. now left.
  - f_equal. apply IH. intros Hin. apply Hk. now right.
Qed.

(** When the yielded units have distinct URLs, none yet in the mapping,
    each appends its entry: the mapping is in the order of the yield. *)
Lemma record_all_distinct (urls : list string) (outcome : nat -> result bool)
  (yielded : list nat) :
  (forall i, In i yielded -> i < List.length urls) ->
  forall d,
    NoDup (BatchDownloader.keys d ++ map (fun i => nth i urls "") yielded) ->
    record_all urls outcome yielded d
    = d ++ map (fun i => (nth i urls "", recorded (outcome i))) yielded.
Proof.
  induction yielded as [|i yielded IH]; intros Hrange d Hnodup.
  - simpl. now rewrite app_nil_r.
  - rewrite record_all_cons.
    rewrite (nth_error_nth' urls "") by (apply Hrange; now left).
    rewrite dict_set_fresh.
    + rewrite IH.
      * rewrite <- app_assoc. reflexivity.
      * intros j Hj. apply Hrange. now right.
      * unfold BatchDownloader.keys in *. rewrite map_app, <- app_assoc.
        exact Hnodup.
    + simpl in Hnodup. apply NoDup_remove_2 in Hnodup.
      intros Hin. apply Hnodup. apply in_or_app. now left.
Qed.

Lemma NoDup_map_nth (urls : list string) (l : list nat) :
  NoDup urls -> NoDup l -> (forall i, In i l -> i < List.length urls) ->
  NoDup (map (fun i => nth i urls "") l).
Proof.
  intros Hurls Hl. induction Hl as [|i l Hi Hl IH]; intros Hrange.
  - constructor.
  - simpl. constructor.
    + rewrite in_map_iff. intros [j [Heq Hj]].
      assert (j = i).
      { apply (proj1 (NoDup_nth urls "") Hurls); auto using in_cons, in_eq. }
      subst j. contradiction.
    + apply IH. intros j Hj. apply Hrange. now right.
Qed.

Lemma Permutation_filter_same {A : Type} (f : A -> bool) (l l' : list A) :
  Permutation l l' -> Permutation (filter f l) (filter f l').
Proof.
  induction 1 as [| x l l' _ IH | x y l | l l' l'' _ IH1 _ IH2]; simpl.
  - constructor.
  - destruct (f x); [now constructor | exact IH].
  - destruct (f x), (f y); try apply Permutation_refl.
    apply perm_swap.
  - now transitivity (filter f l').
Qed.





(* ================================================================== *)
(** * Platform detection *)
(* ================================================================== *)

Lemma startswith_spec (p s : string) :
  startswith p s = true <-> exists rest, s = p +++ rest.
Proof.
  revert s. induction p as [|a p IH]; intros s; simpl.
  - split; [intros _; now exists s | reflexivity].
  - destruct s as [|b s].
    + split; [discriminate | intros [rest H]; discriminate].
    + rewrite andb_true_iff, Ascii.eqb_eq, IH. split.
      * intros [-> [rest ->]]. now exists rest.
      * intros [rest H]. injection H as -> ->. split; [reflexivity |].
        now exists rest.
Qed.

(** The substring test decides [occurs]. *)
Lemma contains_spec (key text : string) :
  contains key text = true <-> occurs key text.
Proof.
  unfold occurs. induction text as [|c text IH].
  - simpl. rewrite orb_false_r, startswith_spec. split.
    + intros [rest H]. now exists "", rest.
    + intros [before [after H]]. destruct before as [|b before].
      * now exists after.
      * discriminate.
  - cbn [contains]. rewrite orb_true_iff, startswith_spec, IH. split.
    + intros [[rest H] | [before [after H]]].
      * now exists "", rest.
      * exists (String c before), after. simpl. now rewrite H.
    + intros [before [after H]]. destruct before as [|b before].
      * left. now exists after.
      * right. simpl in H. injection H as _ H. now exists before, after.
Qed.

Lemma contains_false (key text : string) :
  contains key text = false <-> ~ occurs key text.
Proof.
  rewrite <- contains_spec. destruct (contains key text); split;
    congruence.
Qed.

(** The loop returns the platform of the first entry whose key occurs. *)
Lemma scan_platforms_first (text : string)
  (before : list (string * Platform)) (key : string) (p : Platform)
  (after : list (string * Platform)) :
  occurs key text ->
  (forall k q, In (k, q) before -> ~ occurs k text) ->
  scan_platforms text (before ++ (key, p) :: after) = p.
Proof.
  intros Hkey. induction before as [|[k q] before IH]; intros Hbefore; simpl.
  - apply contains_spec in Hkey. now rewrite Hkey.
  - assert (Hk : contains k text = false).
    { apply contains_false. apply (Hbefore k q). now left. }
    rewrite Hk. apply IH. intros k' q' Hin. apply (Hbefore k' q'). now right.
Qed.

Lemma scan_platforms_none (text : string) (table : list (string * Platform)) :
  (forall k q, In (k, q) table -> ~ occurs k text) ->
  scan_platforms text table = UNKNOWN.
Proof.
  induction table as [|[k q] table IH]; intros Hnone; simpl; [reflexivity |].
  assert (Hk : contains k text = false).
  { apply contains_false. apply (Hnone k q). now left. }
  rewrite Hk. apply IH. intros k' q' Hin. apply (Hnone k' q'). now right.
Qed.

(** The loop depends on the text only through the keys that occur in it. *)
Lemma scan_platforms_ext (text1 text2 : string)
  (table : list (string * Platform)) :
  (forall k q, In (k, q) table -> contains k text1 = contains k text2) ->
  scan_platforms text1 table = scan_platforms text2 table.
Proof.
  induction table as [|[k q] table IH]; intros Hsame; simpl; [reflexivity |].
  rewrite (Hsame k q) by now left.
  rewrite IH; [reflexivity |].
  intros k' q' Hin. apply (Hsame k' q'). now right.
Qed.

(** The two detectors agree on a URL in which every key of the table
    occurs exactly when it occurs in the lowercased network location. *)
Lemma detectors_agree_when_keys_agree (url0 netloc : string) :
  Urllib.urlparse_netloc url0 = Returned netloc ->
  (forall k q,
      In (k, q) Downloader.SUPPORTED_PLATFORMS ->
      contains k url0 = contains k (lower netloc)) ->
  Downloader.detect_platform url0 = Returned (Api.detect_platform url0).
Proof.
  intros Hnetloc Hsame.
  unfold Downloader.detect_platform, Api.detect_platform. rewrite Hnetloc.
  f_equal. symmetry. now apply scan_platforms_ext.
Qed.


(** The network location is not always the host: user information comes
    with it, and a key that occurs there decides. *)
Example detect_userinfo :
  Downloader.detect_platform "http://youtube.com@example.org/"
  = Returned YOUTUBE.
Proof. reflexivity. Qed.



(** C9 fails on the code: the helper of [api.py] searches the whole URL,
    case-sensitively, and the core detector the lowercased network
    location.  A URL that names a supported domain only in its query is
    YOUTUBE for the helper and UNKNOWN for the core; a URL with an
    upper-case host is UNKNOWN for the helper and YOUTUBE for the core. *)
Theorem api_detector_differs_from_core :
  (Api.detect_platform "https://example.org/?q=youtube.com" = YOUTUBE
   /\ Downloader.detect_platform "https://example.org/?q=youtube.com"
      = Returned UNKNOWN)
  /\ (Api.detect_platform "HTTPS://YOUTUBE.COM/watch?v=abc" = UNKNOWN
      /\ Downloader.detect_platform "HTTPS://YOUTUBE.COM/watch?v=abc"
         = Returned YOUTUBE).
Proof. repeat split; reflexivity. Qed.

(* ================================================================== *)
(** * Further properties: validation *)
(* ================================================================== *)

Lemma existsb_eqb_In (q : string) (l : list string) :
  existsb (String.eqb q) l = true <-> In q l.
Proof.
  rewrite existsb_exists. split.
  - intros [x [Hx Heq]]. apply String.eqb_eq in Heq. now subst.
  - intros Hin. exists q. split; [exact Hin | apply String.eqb_refl].
Qed.

(** [mkdir] either fails and changes nothing, or creates the directory,
    keeps every path that existed, and leaves the log alone. *)
Lemma mkdir_parents_cases (p : Path) (w : World) :
  (exists m, mkdir_parents p w = (Raised (OSError m), w))
  \/ (exists w',
        mkdir_parents p w = (Returned tt, w')
        /\ path_exists (fs w') p = true
        /\ (forall q, path_exists (fs w) q = true ->
                      path_exists (fs w') q = true)
        /\ (forall q, ~ In q (ancestors p ++ [p]) -> fs w' q = fs w q)
        /\ log w' = log w).
Proof.
  unfold mkdir_parents.
  destruct (existsb _ (ancestors p ++ [p])) eqn:Hfile.
  - left. eexists. reflexivity.
  - right. eexists. split; [reflexivity |]. cbn [fs log].
    split; [| split; [| split]].
    + unfold path_exists.
      assert (H : existsb (String.eqb p) (ancestors p ++ [p]) = true).
      { apply existsb_eqb_In, in_or_app. right. now left. }
      now rewrite H.
    + intros q Hq. unfold path_exists in *.
      destruct (existsb (String.eqb q) (ancestors p ++ [p])); [reflexivity |].
      exact Hq.
    + intros q Hq.
      destruct (existsb (String.eqb q) (ancestors p ++ [p])) eqn:Hin;
        [| reflexivity].
      apply existsb_eqb_In in Hin. contradiction.
    + reflexivity.
Qed.

(** What holds when validation returns. *)
Lemma validate_config_returned
  (config : DownloadConfig) (w w' : World) :
  Downloader.validate_config config w = (Returned tt, w') ->
  url config <> ""
  /\ platform config <> UNKNOWN
  /\ path_exists (fs w') (output_dir config) = true
  /\ (forall p, cookies_file config = Some p -> path_exists (fs w') p = true)
  /\ (forall q, path_exists (fs w) q = true -> path_exists (fs w') q = true)
  /\ log w' = log w.
Proof.
  unfold Downloader.validate_config.
  destruct (url config =? "") eqn:Hurl; [discriminate |].
  destruct (Platform_eqb (platform config) UNKNOWN) eqn:Hpl; [discriminate |].
  unfold bind, get_fs.
  assert (Hknown : platform config <> UNKNOWN).
  { intros Heq. rewrite Heq in Hpl. discriminate. }
  apply String.eqb_neq in Hurl.
  destruct (path_exists (fs w) (output_dir config)) eqn:Hdir; cbn [negb].
  - unfold ret at 1.
    destruct (cookies_file config) as [p|].
    + destruct (path_exists (fs w) p) eqn:Hp; cbn [negb];
        [| discriminate].
      intros Hrun. injection Hrun as <-.
      repeat (split; [assumption |]).
      split; [| split; [| reflexivity]].
      * intros p' Hp'. injection Hp' as <-. exact Hp.
      * trivial.
    + intros Hrun. injection Hrun as <-.
      repeat (split; [assumption |]).
      split; [discriminate |]. split; [trivial | reflexivity].
  - destruct (mkdir_parents_cases (output_dir config) w)
      as [[m Hfail] | [w1 [Hok [Hdir1 [Hkeep [_ Hlog]]]]]].
    + rewrite Hfail. discriminate.
    + rewrite Hok.
      destruct (cookies_file config) as [p|].
      * destruct (path_exists (fs w1) p) eqn:Hp; cbn [negb];
          [| discriminate].
        intros Hrun. injection Hrun as <-.
        repeat (split; [assumption |]).
        split; [| split; assumption].
        intros p' Hp'. injection Hp' as <-. exact Hp.
      * intros Hrun. injection Hrun as <-.
        repeat (split; [assumption |]).
        split; [discriminate |]. split; assumption.
Qed.

(** X1: when validation returns, the URL is non-empty, the platform is
    known, the output directory exists, the cookie file (if one is
    configured) exists, every path that existed before still exists, and
    nothing was logged. *)
Theorem validate_config_postcondition
  (config : DownloadConfig) (w w' : World) :
  Downloader.validate_config config w = (Returned tt, w') ->
  url config <> ""
  /\ platform config <> UNKNOWN
  /\ path_exists (fs w') (output_dir config) = true
  /\ (forall p, cookies_file config = Some p -> path_exists (fs w') p = true)
  /\ (forall q, path_exists (fs w) q = true -> path_exists (fs w') q = true)
  /\ log w' = log w.
Proof. exact (validate_config_returned config w w'). Qed.

Lemma validate_config_postcondition_witness :
  path_exists
    (fs (snd (Downloader.validate_config sample_config empty_world)))
    "/tmp/out" = true.
Proof.
  destruct (validate_config_postcondition sample_config empty_world
              (snd (Downloader.validate_config sample_config empty_world)))
    as [_ [_ [Hdir _]]].
  - reflexivity.
  - exact Hdir.
Defined.

(** X2: validation is idempotent: once it has returned, validating the
    same configuration again returns and changes nothing. *)
Theorem validate_config_idempotent
  (config : DownloadConfig) (w w' : World) :
  Downloader.validate_config config w = (Returned tt, w') ->
  Downloader.validate_config config w' = (Returned tt, w').
Proof.
  intros Hrun.
  destruct (validate_config_returned config w w' Hrun)
    as [Hurl [Hpl [Hdir [Hcookies _]]]].
  unfold Downloader.validate_config.
  apply String.eqb_neq in Hurl. rewrite Hurl.
  destruct (Platform_eqb (platform config) UNKNOWN) eqn:Hp.
  - apply Platform_eqb_eq in Hp. contradiction.
  - unfold bind, get_fs. rewrite Hdir. cbn [negb]. unfold ret.
    destruct (cookies_file config) as [p|]; [| reflexivity].
    rewrite (Hcookies p eq_refl). reflexivity.
Qed.

Lemma validate_config_idempotent_witness :
  Downloader.validate_config sample_config
    (snd (Downloader.validate_config sample_config empty_world))
  = (Returned tt, snd (Downloader.validate_config sample_config empty_world)).
Proof.
  apply (validate_config_idempotent sample_config empty_world).
  reflexivity.
Defined.

(** The ways validation raises in this model of the file system, in the
    order of the checks. *)
Lemma validate_config_raised
  (config : DownloadConfig) (w w' : World) (e : exn) :
  Downloader.validate_config config w = (Raised e, w') ->
  (url config = "" /\ e = ValueError "URL cannot be empty" /\ w' = w)
  \/ (url config <> "" /\ platform config = UNKNOWN
      /\ e = ValueError ("Unsupported URL: " +++ url config) /\ w' = w)
  \/ (url config <> "" /\ platform config <> UNKNOWN
      /\ path_exists (fs w) (output_dir config) = false
      /\ (exists m, e = OSError m) /\ w' = w)
  \/ (url config <> "" /\ platform config <> UNKNOWN
      /\ path_exists (fs w') (output_dir config) = true
      /\ (forall q, path_exists (fs w) q = true ->
                    path_exists (fs w') q = true)
      /\ exists p,
           cookies_file config = Some p
           /\ path_exists (fs w') p = false
           /\ e = FileNotFoundError ("Cookies file not found: " +++ p)).
Proof.
  unfold Downloader.validate_config. intros Hrun.
  destruct (String.eqb_spec (url config) "") as [Hurl | Hurl].
  { injection Hrun as <- <-. left. auto. }
  destruct (Platform_eqb (platform config) UNKNOWN) eqn:Hpl.
  { apply Platform_eqb_eq in Hpl.
    injection Hrun as <- <-. right. left. auto. }
  assert (Hknown : platform config <> UNKNOWN).
  { intros Heq. rewrite Heq in Hpl. discriminate. }
  right. right. unfold bind, get_fs in Hrun.
  destruct (path_exists (fs w) (output_dir config)) eqn:Hdir;
    cbn [negb] in Hrun.
  - unfold ret at 1 in Hrun.
    destruct (cookies_file config) as [p|]; [| discriminate].
    destruct (path_exists (fs w) p) eqn:Hp; cbn [negb] in Hrun;
      [discriminate |].
    injection Hrun as <- <-. right.
    repeat (split; [first [assumption | reflexivity] |]).
    split; [trivial |]. exists p. auto.
  - destruct (mkdir_parents_cases (output_dir config) w)
      as [[m Hfail] | [w1 [Hok [Hdir1 [Hkeep _]]]]].
    + rewrite Hfail in Hrun. injection Hrun as <- <-. left.
      repeat (split; [first [assumption | reflexivity] |]).
      split; [now exists m | reflexivity].
    + rewrite Hok in Hrun.
      destruct (cookies_file config) as [p|]; [| discriminate].
      destruct (path_exists (fs w1) p) eqn:Hp; cbn [negb] in Hrun;
        [discriminate |].
      injection Hrun as <- <-. right.
      repeat (split; [first [assumption | reflexivity] |]).
      exists p. auto.
Qed.

(** X3: the three errors that validation raises itself, in the order of its
    checks.  The empty-URL error is raised exactly for an empty URL (also
    when the platform is UNKNOWN), with the world untouched; the
    unsupported-URL error only for a non-empty URL with the UNKNOWN
    platform, with the world untouched; the cookie-file error only for a
    non-empty URL with a known platform and a configured cookie file that
    is missing, once the output directory exists: created if it was
    missing, it stays, as does every path that existed before. *)
Theorem validate_config_failures (config : DownloadConfig) (w w' : World) :
  (url config = "" ->
   Downloader.validate_config config w
   = (Raised (ValueError "URL cannot be empty"), w))
  /\ (Downloader.validate_config config w
      = (Raised (ValueError "URL cannot be empty"), w') ->
      url config = "" /\ w' = w)
  /\ (forall u,
        Downloader.validate_config config w
        = (Raised (ValueError ("Unsupported URL: " +++ u)), w') ->
        u = url config /\ url config <> "" /\ platform config = UNKNOWN
        /\ w' = w)
  /\ (forall p,
        Downloader.validate_config config w
        = (Raised (FileNotFoundError ("Cookies file not found: " +++ p)), w') ->
        url config <> "" /\ platform config <> UNKNOWN
        /\ cookies_file config = Some p
        /\ path_exists (fs w') (output_dir config) = true
        /\ path_exists (fs w') p = false
        /\ (forall q, path_exists (fs w) q = true ->
                      path_exists (fs w') q = true)).
Proof.
  split; [| split; [| split]].
  - intros Hurl. unfold Downloader.validate_config. rewrite Hurl.
    reflexivity.
  - intros Hrun.
    destruct (validate_config_raised config w w' _ Hrun)
      as [[Hu [_ Hw]] | [[_ [_ [He _]]] | [[_ [_ [_ [[m He] _]]]]
          | [_ [_ [_ [_ [p [_ [_ He]]]]]]]]]].
    + split; assumption.
    + cbn in He. discriminate He.
    + discriminate He.
    + discriminate He.
  - intros u Hrun.
    destruct (validate_config_raised config w w' _ Hrun)
      as [[_ [He _]] | [[Hu [Hp [He Hw]]] | [[_ [_ [_ [[m He] _]]]]
          | [_ [_ [_ [_ [p [_ [_ He]]]]]]]]]].
    + cbn in He. discriminate He.
    + cbn in He. injection He as He. repeat (split; [assumption |]).
      exact Hw.
    + discriminate He.
    + discriminate He.
  - intros p Hrun.
    destruct (validate_config_raised config w w' _ Hrun)
      as [[_ [He _]] | [[_ [_ [He _]]] | [[_ [_ [_ [[m He] _]]]]
          | [Hu [Hp [Hdir [Hkeep [p' [Hc [Hmiss He]]]]]]]]]].
    + discriminate He.
    + discriminate He.
    + discriminate He.
    + cbn in He. injection He as He. subst p'.
      repeat (split; [assumption |]). exact Hkeep.
Qed.

Lemma validate_config_failures_witness :
  path_exists
    (fs (snd (Downloader.validate_config instagram_config empty_world)))
    "out" = true
  /\ path_exists
       (fs (snd (Downloader.validate_config instagram_config empty_world)))
       "cookies.txt" = false.
Proof.
  destruct (proj2 (proj2 (proj2
              (validate_config_failures instagram_config empty_world
                 (snd (Downloader.validate_config instagram_config
                         empty_world)))))
              "cookies.txt" eq_refl)
    as [_ [_ [_ [Hdir [Hmiss _]]]]].
  split; [exact Hdir | exact Hmiss].
Defined.

(* ================================================================== *)
(** * Further properties: the command *)
(* ================================================================== *)

Lemma append_assoc (a b c : string) : (a +++ b) +++ c = a +++ b +++ c.
Proof. induction a as [|x a IH]; simpl; [reflexivity | now rewrite IH]. Qed.

Lemma endswith_char_append (c b : ascii) (a s : string) :
  endswith_char c (a +++ String b s) = endswith_char c (String b s).
Proof.
  induction a as [|x a IH]; [reflexivity |].
  cbn [String.append]. rewrite <- IH.
  cbn [endswith_char]. destruct (a +++ String b s) eqn:Ha; [| reflexivity].
  destruct a; discriminate.
Qed.

Lemma append_nonempty (a : string) (b : ascii) (s : string) :
  (a +++ String b s =? "") = false.
Proof. destruct a; reflexivity. Qed.

(** [os.path.join(a, b, c)] when [b] and [c] are relative, [b] is not
    empty and does not end with a separator. *)
Lemma os_path_join_relative (a : string) (b0 : ascii) (b c : string) :
  startswith "/" (String b0 b) = false ->
  endswith_char "/" (String b0 b) = false ->
  startswith "/" c = false ->
  os_path_join a [String b0 b; c]
  = (if (a =? "") || endswith_char "/" a then a else a +++ "/")
    +++ String b0 b +++ "/" +++ c.
Proof.
  intros Hb Hend Hc. unfold os_path_join. cbn [fold_left].
  rewrite Hb, Hc.
  destruct ((a =? "") || endswith_char "/" a).
  - rewrite append_nonempty, endswith_char_append, Hend. cbn [orb].
    now rewrite append_assoc.
  - rewrite append_assoc.
    change (a +++ "/" +++ String b0 b)
      with (a +++ String "/" (String b0 b)).
    rewrite append_nonempty.
    change (a +++ String "/" (String b0 b))
      with (a +++ "/" +++ String b0 b).
    rewrite <- (append_assoc a "/" (String b0 b)).
    rewrite endswith_char_append, Hend. cbn [orb].
    now rewrite !append_assoc.
Qed.

(** X4: the output template is the output directory, a separator unless
    the directory is empty or already ends with one, the folder [Audio] for
    an audio download and [Video] for every other type (also when none is
    given), and the file-name pattern of the platform: with the uploader
    for Instagram, TikTok and Twitter, without it for all others. *)
Theorem output_template_layout (config : DownloadConfig) :
  Downloader.get_output_template config
  = (if (output_dir config =? "") || endswith_char "/" (output_dir config)
     then output_dir config
     else output_dir config +++ "/")
    +++ (match download_type config with
         | Some AUDIO => "Audio"
         | _ => "Video"
         end)
    +++ "/"
    +++ (match platform config with
         | INSTAGRAM | TIKTOK | TWITTER =>
             "%(uploader)s - %(title)s [%(id)s].%(ext)s"
         | _ => "%(title)s [%(id)s].%(ext)s"
         end).
Proof.
  unfold Downloader.get_output_template.
  destruct (download_type config) as [[]|]; cbn [is_AUDIO];
    destruct (platform config); cbn [Downloader.dict_get Downloader.templates
                                       Platform_eqb];
    apply os_path_join_relative; reflexivity.
Qed.

Lemma str_int_inj (a b : Z) : str_int a = str_int b -> a = b.
Proof.
  unfold str_int. intros Heq.
  assert (Hparse : forall n,
            NilZero.int_of_string (NilZero.string_of_int (Z.to_int n))
            = Some (Z.to_int n)).
  { intros n. apply NilZero.isi.
    - destruct n as [|p|p]; simpl; try discriminate.
      intros H. injection H as H.
      now apply (DecimalPos.Unsigned.to_uint_nonnil p).
    - destruct n as [|p|p]; simpl; try discriminate.
      intros H. injection H as H.
      now apply (DecimalPos.Unsigned.to_uint_nonnil p). }
  apply DecimalZ.to_int_inj.
  assert (H : Some (Z.to_int a) = Some (Z.to_int b)).
  { rewrite <- !Hparse. now rewrite Heq. }
  now injection H.
Qed.

Lemma build_last (fs : FS) (config : DownloadConfig) :
  last (Downloader.build_yt_dlp_command fs config) "" = url config.
Proof. rewrite build_shape, app_assoc. apply last_last. Qed.

Lemma option_value_hit (flag v : string) (rest : list string) :
  option_value flag (flag :: v :: rest) = Some v.
Proof. simpl. now rewrite String.eqb_refl. Qed.

(** X5: the command carries the number of retries and of concurrent
    fragments as the decimal values of [--retries] and
    [--concurrent-fragments], and the output template as the value of [-o];
    two configurations that give the same command have the same URL, the
    same number of retries and the same number of fragments. *)
Theorem numeric_options_pass_through (fs : FS) (config : DownloadConfig) :
  option_value "--retries" (Downloader.build_yt_dlp_command fs config)
  = Some (str_int (retries config))
  /\ option_value "--concurrent-fragments"
       (Downloader.build_yt_dlp_command fs config)
     = Some (str_int (concurrent_fragments config))
  /\ option_value "-o" (Downloader.build_yt_dlp_command fs config)
     = Some (Downloader.get_output_template config)
  /\ forall fs' config',
       Downloader.build_yt_dlp_command fs config
       = Downloader.build_yt_dlp_command fs' config' ->
       url config = url config'
       /\ retries config = retries config'
       /\ concurrent_fragments config = concurrent_fragments config'.
Proof.
  assert (Hr : forall f c,
    option_value "--retries" (Downloader.build_yt_dlp_command f c)
    = Some (str_int (retries c))).
  { intros f c. rewrite build_shape, command_options_shape.
    rewrite <- !app_assoc. cbn [app].
    do 3 (rewrite option_value_skip by discriminate).
    apply option_value_hit. }
  assert (Hc : forall f c,
    option_value "--concurrent-fragments"
      (Downloader.build_yt_dlp_command f c)
    = Some (str_int (concurrent_fragments c))).
  { intros f c. rewrite build_shape, command_options_shape.
    rewrite <- !app_assoc. cbn [app].
    do 4 (rewrite option_value_skip by discriminate).
    rewrite option_value_skip by (apply str_int_neq; reflexivity).
    apply option_value_hit. }
  split; [apply Hr |]. split; [apply Hc |]. split.
  - rewrite build_shape, command_options_shape.
    rewrite <- !app_assoc. cbn [app].
    do 4 (rewrite option_value_skip by discriminate).
    rewrite option_value_skip by (apply str_int_neq; reflexivity).
    rewrite option_value_skip by discriminate.
    rewrite option_value_skip by (apply str_int_neq; reflexivity).
    do 3 (rewrite option_value_skip by discriminate).
    apply option_value_hit.
  - intros fs' config' Heq. split; [| split].
    + rewrite <- (build_last fs config), <- (build_last fs' config').
      now rewrite Heq.
    + apply str_int_inj.
      pose proof (Hr fs config) as H1. rewrite Heq, Hr in H1.
      now injection H1.
    + apply str_int_inj.
      pose proof (Hc fs config) as H1. rewrite Heq, Hc in H1.
      now injection H1.
Qed.

(** X6: the command starts with the program, ends with the URL, and has
    fifteen arguments plus two for each of: a non-empty rate limit, a
    non-empty proxy, and cookie arguments, which are present exactly when
    the configured cookie file exists, or the platform is YouTube and the
    default cookie file exists, or the platform is Instagram. *)
Theorem command_layout (fs : FS) (config : DownloadConfig) :
  hd_error (Downloader.build_yt_dlp_command fs config) = Some "yt-dlp"
  /\ last (Downloader.build_yt_dlp_command fs config) "" = url config
  /\ List.length (Downloader.build_yt_dlp_command fs config)
     = 15
       + if_truthy (rate_limit config) (fun _ => 2) 0
       + if_truthy (proxy config) (fun _ => 2) 0
       + (if set_and_exists fs (cookies_file config)
             || (Platform_eqb (platform config) YOUTUBE
                 && path_exists fs Downloader.COOKIES_FILE)
             || Platform_eqb (platform config) INSTAGRAM
          then 2 else 0).
Proof.
  split; [| split].
  - rewrite build_shape, command_options_shape. reflexivity.
  - apply build_last.
  - rewrite build_shape, !length_app.
    assert (Hoptions :
      List.length (Downloader.command_options config)
      = 14 + if_truthy (rate_limit config) (fun _ => 2) 0
        + if_truthy (proxy config) (fun _ => 2) 0).
    { rewrite command_options_shape, !length_app. unfold if_truthy.
      destruct (rate_limit config) as [r|]; [destruct (r =? "")|];
        (destruct (proxy config) as [p|]; [destruct (p =? "")|]);
        reflexivity. }
    rewrite Hoptions. cbn [List.length].
    destruct (set_and_exists fs (cookies_file config)) eqn:Hset.
    + destruct (cookies_file config); [cbn [List.length orb]; lia |].
      discriminate Hset.
    + destruct (Platform_eqb (platform config) YOUTUBE
                && path_exists fs Downloader.COOKIES_FILE);
        cbn [orb List.length]; [lia |].
      destruct (Platform_eqb (platform config) INSTAGRAM);
        cbn [List.length]; lia.
Qed.

(* ================================================================== *)
(** * Further properties: download and its log *)
(* ================================================================== *)

Lemma log_progress_entries (lines : list string) (w : World) :
  exists w',
    Downloader.log_progress lines w = (Returned tt, w')
    /\ fs w' = fs w
    /\ log w' = log w ++ progress_entries lines.
Proof.
  revert w. induction lines as [|line lines IH]; intros w.
  - exists w. repeat split. cbn. now rewrite app_nil_r.
  - cbn [Downloader.log_progress]. unfold bind, progress_entries.
    cbn [filter]. destruct (strip line =? "") eqn:Hblank; cbn [negb].
    + unfold ret at 1. apply IH.
    + unfold logger at 1.
      destruct (IH {| fs := fs w; log := log w ++ [(INFO, strip line)] |})
        as [w' [Hrun [Hfs Hlog]]].
      exists w'. split; [exact Hrun |]. split; [exact Hfs |].
      rewrite Hlog. cbn [fs log map]. rewrite <- app_assoc. reflexivity.
Qed.

(** Computes the log of a finished run and compares the two lists. *)
Local Ltac solve_log :=
  unfold bind, logger, ret, raise; cbn [snd fst log fs];
  repeat match goal with
  | H : log ?w2 = _ |- context [log ?w2] => rewrite H
  end;
  repeat match goal with
  | w1 := _ : World |- _ => subst w1
  end;
  cbn [log fs];
  rewrite <- ?app_assoc, ?app_nil_r; cbn [app]; reflexivity.

(** X7: what [download] writes to the log.  It appends, after the existing
    records, the command line, then the progress lines of the process
    (stripped, blank ones skipped, in order), then nothing more when it
    returns true and exactly one ERROR record when it returns false; when
    the process exits with a non-zero status that record carries its
    standard error text. *)
Theorem download_log
  (popen : list string -> Downloader.ProcessRun)
  (config : DownloadConfig) (w : World) :
  let cmd := Downloader.build_yt_dlp_command (fs w) config in
  let w' := snd (Downloader.download popen config w) in
  exists tail,
    log w'
    = log w
      ++ (INFO, "Executing command: " +++ join " " cmd)
         :: progress_entries (output_lines (popen cmd)) ++ tail
    /\ ((fst (Downloader.download popen config w) = Returned true
         /\ tail = [])
        \/ (fst (Downloader.download popen config w) = Returned false
            /\ exists msg, tail = [(ERROR, msg)]))
    /\ (forall lines returncode err,
          popen cmd = Downloader.Exits lines returncode (Returned err) ->
          returncode <> 0%Z ->
          tail = [(ERROR, "Download failed with error: " +++ err)]).
Proof.
  intros cmd w'. subst w'.
  unfold Downloader.download, bind, get_fs, try_except.
  cbn [logger fs log]. fold cmd.
  set (w1 := {| fs := fs w; log := _ |}).
  destruct (popen cmd) as [e | lines e exited | lines returncode stderr] eqn:Hrun;
    cbn [output_lines].
  - unfold raise.
    exists [(ERROR, match e with
                    | CalledProcessError _ s =>
                        "Download failed with error: " +++ s
                    | _ => "Unexpected error during download: "
                           +++ str_exn e
                    end)].
    split; [| split].
    + destruct e; solve_log.
    + right. split; [destruct e; reflexivity | eexists; reflexivity].
    + intros l rc err Hx. discriminate Hx.
  - destruct (log_progress_entries lines w1) as [w2 [Hlog [_ Hentries]]].
    rewrite Hlog. unfold raise.
    exists [(ERROR, match e with
                    | CalledProcessError _ s =>
                        "Download failed with error: " +++ s
                    | _ => "Unexpected error during download: "
                           +++ str_exn e
                    end)].
    split; [| split].
    + destruct e; solve_log.
    + right. split; [destruct e; reflexivity | eexists; reflexivity].
    + intros l rc err Hx. discriminate Hx.
  - destruct (log_progress_entries lines w1) as [w2 [Hlog [_ Hentries]]].
    rewrite Hlog.
    destruct (returncode =? 0)%Z eqn:Hrc; cbn [negb].
    + exists []. split; [| split].
      * solve_log.
      * left. split; reflexivity.
      * intros l rc err Hx Hnz. injection Hx as _ <- _.
        apply Z.eqb_eq in Hrc. contradiction.
    + destruct stderr as [err | e].
      * exists [(ERROR, "Download failed with error: " +++ err)].
        split; [| split].
        -- solve_log.
        -- right. split; [reflexivity | eexists; reflexivity].
        -- intros l rc err' Hx _. injection Hx as _ _ <-. reflexivity.
      * unfold raise.
        exists [(ERROR, match e with
                        | CalledProcessError _ s =>
                            "Download failed with error: " +++ s
                        | _ => "Unexpected error during download: "
                               +++ str_exn e
                        end)].
        split; [| split].
        -- destruct e; solve_log.
        -- right. split; [destruct e; reflexivity | eexists; reflexivity].
        -- intros l rc err Hx. discriminate Hx.
Qed.

(* ================================================================== *)
(** * Further properties: units and batches *)
(* ================================================================== *)

(** X8: a unit run against a generic template (platform UNKNOWN) fails
    before anything happens when the platform of its URL cannot be
    determined: it raises the error of [urlparse] when the URL is rejected,
    the empty-URL error for an empty URL, and the unsupported-URL error when
    no supported domain is found; in each case the world is untouched (no
    directory created, nothing logged, hence no process started). *)
Theorem unit_rejects_undetected_url
  (popen : list string -> Downloader.ProcessRun)
  (u : string) (config : DownloadConfig) (w : World) :
  platform config = UNKNOWN ->
  (forall e,
      Downloader.detect_platform u = Raised e ->
      BatchDownloader._download_single popen u config w = (Raised e, w))
  /\ (u = "" ->
      BatchDownloader._download_single popen u config w
      = (Raised (ValueError "URL cannot be empty"), w))
  /\ (u <> "" ->
      Downloader.detect_platform u = Returned UNKNOWN ->
      BatchDownloader._download_single popen u config w
      = (Raised (ValueError ("Unsupported URL: " +++ u)), w)).
Proof.
  intros Hgeneric. unfold BatchDownloader._download_single.
  rewrite Hgeneric. cbn [Platform_eqb negb]. split; [| split].
  - intros e ->. reflexivity.
  - intros ->. reflexivity.
  - intros Hu ->. unfold bind, ret at 1.
    unfold Downloader.validate_config. cbn [url platform].
    apply String.eqb_neq in Hu. rewrite Hu. reflexivity.
Qed.

Lemma unit_rejects_undetected_url_witness :
  BatchDownloader._download_single
    (fun _ => Downloader.Exits [] 0 (Returned ""))
    "https://example.org/clip" generic_template empty_world
  = (Raised (ValueError "Unsupported URL: https://example.org/clip"),
     empty_world).
Proof.
  apply (unit_rejects_undetected_url _ "https://example.org/clip"
           generic_template empty_world eq_refl).
  - discriminate.
  - reflexivity.
Defined.

Lemma filter_length_split {A : Type} (f : A -> bool) (l : list A) :
  List.length (filter f l) + List.length (filter (fun x => negb (f x)) l)
  = List.length l.
Proof.
  induction l as [|x l IH]; [reflexivity |].
  cbn [filter]. destruct (f x); cbn [negb List.length]; lia.
Qed.

(** X9: the counts of the summary are consistent for every mapping: the
    total is the number of successes plus the number of failures, the list
    of failed URLs has as many entries as there are failures, and it is
    empty exactly when every entry succeeded. *)
Theorem summary_counts (results : BatchDownloader.dict) :
  let s := BatchDownloader.summary results in
  BatchDownloader.total s
  = BatchDownloader.successful s + BatchDownloader.failed s
  /\ List.length (BatchDownloader.failed_urls s) = BatchDownloader.failed s
  /\ (BatchDownloader.failed_urls s = []
      <-> BatchDownloader.successful s = BatchDownloader.total s)
  /\ (BatchDownloader.successful s = BatchDownloader.total s
      <-> forall u v, In (u, v) results -> v = true).
Proof.
  intros s. subst s.
  pose proof (filter_length_split (fun r : string * bool => snd r) results)
    as Hsplit.
  rewrite failed_urls_summary, length_map.
  unfold BatchDownloader.summary.
  cbn [BatchDownloader.total BatchDownloader.successful
         BatchDownloader.failed].
  set (good := filter (fun r : string * bool => snd r) results) in *.
  set (bad := filter (fun r : string * bool => negb (snd r)) results) in *.
  split; [lia |]. split; [lia |]. split; [split | split].
  - intros Hnil. apply map_eq_nil in Hnil. rewrite Hnil in Hsplit.
    cbn in Hsplit. lia.
  - intros Hall. assert (Hbad : bad = []).
    { apply length_zero_iff_nil. lia. }
    now rewrite Hbad.
  - intros Hall u v Hin. destruct v; [reflexivity |].
    assert (Hbad : bad = []) by (apply length_zero_iff_nil; lia).
    assert (Hmem : In (u, false) bad).
    { apply filter_In. split; [exact Hin | reflexivity]. }
    rewrite Hbad in Hmem. destruct Hmem.
  - intros Hall. assert (Hbad : bad = []).
    { subst bad. clear Hsplit good.
      induction results as [|[k v] d IH]; [reflexivity |].
      cbn [filter snd]. rewrite (Hall k v) by now left. cbn [negb].
      apply IH. intros u v' Hin. apply (Hall u). now right. }
    rewrite Hbad in Hsplit. cbn in Hsplit. lia.
Qed.

Lemma nodup_length_le (l : list string) :
  List.length (nodup string_dec l) <= List.length l.
Proof.
  induction l as [|a l IH]; [reflexivity |].
  cbn [nodup]. destruct (in_dec string_dec a l); cbn [List.length]; lia.
Qed.

Lemma nodup_length_eq (l : list string) :
  List.length (nodup string_dec l) = List.length l <-> NoDup l.
Proof.
  split.
  - induction l as [|a l IH]; [constructor |].
    cbn [nodup]. pose proof (nodup_length_le l) as Hle.
    destruct (in_dec string_dec a l) as [Hin | Hout]; cbn [List.length];
      intros Hlen; [lia |].
    constructor; [exact Hout | apply IH; lia].
  - intros Hl. now rewrite nodup_fixed_point.
Qed.

(** The mapping a batch returns, and what is known of its keys. *)
Lemma batch_returns (urls : list string) (max_workers : Z)
  (outcome : nat -> result bool) (yielded : list nat) (w : World) :
  (0 < max_workers)%Z ->
  exists w',
    BatchDownloader.download_batch urls max_workers outcome yielded w
    = (Returned (record_all urls outcome yielded []), w')
    /\ fs w' = fs w.
Proof.
  intros Hpool. unfold BatchDownloader.download_batch.
  apply Z.leb_gt in Hpool. rewrite Hpool.
  apply collect_record_all.
Qed.

(** X10: the total of the summary of a batch is the number of distinct
    URLs submitted, not the length of the list: it is at most that length,
    and equal to it exactly when no URL was submitted twice. *)
Theorem batch_total_counts_distinct_urls (urls : list string)
  (max_workers : Z) (outcome : nat -> result bool) (yielded : list nat)
  (w : World) :
  (0 < max_workers)%Z ->
  Permutation yielded (seq 0 (List.length urls)) ->
  exists results w',
    BatchDownloader.download_batch urls max_workers outcome yielded w
    = (Returned results, w')
    /\ BatchDownloader.total (BatchDownloader.summary results)
       = List.length (nodup string_dec urls)
    /\ BatchDownloader.total (BatchDownloader.summary results)
       <= List.length urls
    /\ (BatchDownloader.total (BatchDownloader.summary results)
        = List.length urls <-> NoDup urls).
Proof.
  intros Hpool Hperm.
  destruct (batch_returns urls max_workers outcome yielded w Hpool)
    as [w' [Hrun _]].
  exists (record_all urls outcome yielded []), w'.
  split; [exact Hrun |].
  assert (Htotal :
    BatchDownloader.total
      (BatchDownloader.summary (record_all urls outcome yielded []))
    = List.length (nodup string_dec urls)).
  { unfold BatchDownloader.summary. cbn [BatchDownloader.total].
    rewrite <- (length_map fst).
    apply Permutation_length, NoDup_Permutation.
    - apply (record_all_NoDup urls outcome yielded []). constructor.
    - apply NoDup_nodup.
    - intros u. rewrite nodup_In.
      change (map fst (record_all urls outcome yielded []))
        with (BatchDownloader.keys (record_all urls outcome yielded [])).
      rewrite record_all_keys, (yielded_unit_iff urls yielded u Hperm).
      simpl. tauto. }
  rewrite Htotal. split; [reflexivity |].
  split; [apply nodup_length_le | apply nodup_length_eq].
Qed.

Lemma batch_total_counts_distinct_urls_witness :
  exists results w',
    BatchDownloader.download_batch ["a"; "b"; "a"] 2
      (fun _ => Returned true) [2; 1; 0] empty_world
    = (Returned results, w')
    /\ BatchDownloader.total (BatchDownloader.summary results) = 2.
Proof.
  destruct (batch_total_counts_distinct_urls ["a"; "b"; "a"] 2
              (fun _ => Returned true) [2; 1; 0] empty_world)
    as [results [w' [Hrun [Htotal _]]]].
  - reflexivity.
  - apply Permutation_sym. exact (Permutation_rev [0; 1; 2]).
  - exists results, w'. split; [exact Hrun | exact Htotal].
Defined.

Lemma collect_log (urls : list string) (outcome : nat -> result bool)
  (yielded : list nat) :
  forall (results : BatchDownloader.dict) (w : World),
    log (snd (BatchDownloader.collect urls outcome yielded results w))
    = log w ++ batch_error_entries urls outcome yielded.
Proof.
  induction yielded as [|i yielded IH]; intros results w.
  - cbn. now rewrite app_nil_r.
  - cbn [BatchDownloader.collect batch_error_entries flat_map].
    fold (batch_error_entries urls outcome yielded).
    destruct (nth_error urls i) as [u|]; [| apply IH].
    unfold bind, try_except.
    destruct (outcome i) as [b | e].
    + unfold ret at 1 2. cbn [app]. apply IH.
    + unfold raise, logger, ret. rewrite IH. cbn [log].
      now rewrite <- app_assoc.
Qed.

(** X11: the batch logs one ERROR record for each unit that raised, naming
    its URL and the error, in the order in which [as_completed] yields the
    futures, and nothing else: a unit that returns false is not logged by
    the batch. *)
Theorem batch_logs_raised_units (urls : list string) (max_workers : Z)
  (outcome : nat -> result bool) (yielded : list nat) (w : World) :
  (0 < max_workers)%Z ->
  log (snd (BatchDownloader.download_batch urls max_workers outcome
              yielded w))
  = log w ++ batch_error_entries urls outcome yielded
  /\ (Forall (fun i => exists b, outcome i = Returned b) yielded ->
      log (snd (BatchDownloader.download_batch urls max_workers outcome
                  yielded w))
      = log w).
Proof.
  intros Hpool. unfold BatchDownloader.download_batch.
  apply Z.leb_gt in Hpool. rewrite Hpool.
  rewrite collect_log. split; [reflexivity |].
  intros Hall. rewrite <- (app_nil_r (log w)) at 2. f_equal.
  induction Hall as [|i l [b Hb] _ IH]; [reflexivity |].
  cbn [batch_error_entries flat_map]. rewrite Hb.
  destruct (nth_error urls i); exact IH.
Qed.

Lemma batch_logs_raised_units_witness :
  log (snd (BatchDownloader.download_batch ["a"; "b"] 2
              (fun i => match i with
                        | 0 => Returned false
                        | _ => Raised (ValueError "Unsupported URL: b")
                        end)
              [1; 0] empty_world))
  = [(ERROR, "Error downloading b: Unsupported URL: b")].
Proof.
  apply (proj1 (batch_logs_raised_units ["a"; "b"] 2
                  (fun i => match i with
                            | 0 => Returned false
                            | _ => Raised (ValueError "Unsupported URL: b")
                            end)
                  [1; 0] empty_world eq_refl)).
Defined.

(** X12: when no URL is submitted twice, the order in which the futures
    are yielded (and so the order of completion) changes only the order of
    the entries: two runs of the same batch under two
    orders return mappings that are permutations of each other, with the
    same counts in their summaries. *)
Theorem batch_schedule_independent (urls : list string) (max_workers : Z)
  (outcome : nat -> result bool) (yielded1 yielded2 : list nat)
  (w1 w2 : World) :
  (0 < max_workers)%Z ->
  NoDup urls ->
  Permutation yielded1 (seq 0 (List.length urls)) ->
  Permutation yielded2 (seq 0 (List.length urls)) ->
  exists results1 results2,
    fst (BatchDownloader.download_batch urls max_workers outcome
           yielded1 w1) = Returned results1
    /\ fst (BatchDownloader.download_batch urls max_workers outcome
              yielded2 w2) = Returned results2
    /\ Permutation results1 results2
    /\ BatchDownloader.total (BatchDownloader.summary results1)
       = BatchDownloader.total (BatchDownloader.summary results2)
    /\ BatchDownloader.successful (BatchDownloader.summary results1)
       = BatchDownloader.successful (BatchDownloader.summary results2)
    /\ BatchDownloader.failed (BatchDownloader.summary results1)
       = BatchDownloader.failed (BatchDownloader.summary results2).
Proof.
  intros Hpool Hurls Hperm1 Hperm2.
  destruct (batch_returns urls max_workers outcome yielded1 w1 Hpool)
    as [w1' [Hrun1 _]].
  destruct (batch_returns urls max_workers outcome yielded2 w2 Hpool)
    as [w2' [Hrun2 _]].
  exists (record_all urls outcome yielded1 []),
         (record_all urls outcome yielded2 []).
  rewrite Hrun1, Hrun2. split; [reflexivity |]. split; [reflexivity |].
  assert (Hshape : forall yielded,
            Permutation yielded (seq 0 (List.length urls)) ->
            record_all urls outcome yielded []
            = map (fun i => (nth i urls "", recorded (outcome i))) yielded).
  { intros yielded Hperm.
    assert (Hrange : forall i, In i yielded -> i < List.length urls).
    { intros i Hi. apply (Permutation_in i Hperm) in Hi.
      apply in_seq in Hi. lia. }
    rewrite record_all_distinct; [reflexivity | exact Hrange |].
    cbn [BatchDownloader.keys map app].
    apply NoDup_map_nth; [exact Hurls | | exact Hrange].
    apply (Permutation_NoDup (Permutation_sym Hperm)), seq_NoDup. }
  assert (Hresults :
    Permutation (record_all urls outcome yielded1 [])
      (record_all urls outcome yielded2 [])).
  { rewrite (Hshape yielded1 Hperm1), (Hshape yielded2 Hperm2).
    apply Permutation_map.
    now rewrite Hperm1, Hperm2. }
  split; [exact Hresults |].
  unfold BatchDownloader.summary.
  cbn [BatchDownloader.total BatchDownloader.successful
         BatchDownloader.failed].
  pose proof (Permutation_length Hresults) as Hlen.
  pose proof (Permutation_length
                (Permutation_filter_same (fun r : string * bool => snd r)
                   _ _ Hresults)) as Hgood.
  rewrite Hlen, Hgood. repeat split.
Qed.

Lemma batch_schedule_independent_witness :
  exists results1 results2,
    fst (BatchDownloader.download_batch ["a"; "b"; "c"] 2
           (fun i => match i with 1 => Returned false | _ => Returned true end)
           [0; 1; 2] empty_world) = Returned results1
    /\ fst (BatchDownloader.download_batch ["a"; "b"; "c"] 2
              (fun i => match i with 1 => Returned false | _ => Returned true end)
              [2; 1; 0] empty_world) = Returned results2
    /\ Permutation results1 results2.
Proof.
  destruct (batch_schedule_independent ["a"; "b"; "c"] 2
              (fun i => match i with 1 => Returned false | _ => Returned true end)
              [0; 1; 2] [2; 1; 0] empty_world empty_world)
    as [r1 [r2 [H1 [H2 [Hperm _]]]]].
  - reflexivity.
  - repeat constructor; simpl; intuition discriminate.
  - apply Permutation_refl.
  - apply Permutation_sym. exact (Permutation_rev [0; 1; 2]).
  - exists r1, r2. split; [exact H1 |]. split; [exact H2 | exact Hperm].
Defined.

(* ================================================================== *)
(** * Further properties: the command-line entry *)
(* ================================================================== *)

(** Comment lines are recognised by their first character only. *)
Example input_file_urls_example :
  Main.input_file_urls
    [ "https://vimeo.com/1" +++ String "010" "";
      "# a comment" +++ String "010" "";
      String "010" "";
      "  # indented" +++ String "010" "";
      "  https://youtu.be/x  " ]
  = ["https://vimeo.com/1"; "# indented"; "https://youtu.be/x"].
Proof. reflexivity. Qed.

Example program_exit_examples :
  fst (Main.program (Main.Parsed (default_args ["a"; "b"]))
         (fun _ => Returned []) (fun _ _ => Returned true) [1; 0]
         empty_world) = Returned 0%Z
  /\ fst (Main.program (Main.Parsed (default_args ["a"; "b"]))
            (fun _ => Returned []) (fun _ i => Returned (Nat.eqb i 0)) [1; 0]
            empty_world)
     = Returned 1%Z
  /\ fst (Main.program (Main.Parsed (default_args []))
            (fun _ => Returned []) (fun _ _ => Returned true) []
            empty_world) = Returned 1%Z
  /\ Main.program (Main.ParserExits 2) (fun _ => Returned [])
       (fun _ _ => Returned true) [] empty_world
     = (Returned 2%Z, empty_world).
Proof. repeat split; reflexivity. Qed.

Lemma lstrip_fixed (s : string) :
  match s with String c _ => is_space c = false | EmptyString => True end ->
  lstrip s = s.
Proof. destruct s as [|c s]; [reflexivity |]. simpl. now intros ->. Qed.

Lemma lstrip_head (s : string) :
  match lstrip s with
  | String c _ => is_space c = false
  | EmptyString => True
  end.
Proof.
  induction s as [|c s IH]; [exact I |].
  simpl. destruct (is_space c) eqn:Hc; [exact IH | exact Hc].
Qed.

Lemma rstrip_head (s : string) :
  match s with String c _ => is_space c = false | EmptyString => True end ->
  match rstrip s with
  | String c _ => is_space c = false
  | EmptyString => True
  end.
Proof.
  destruct s as [|c s]; [trivial |].
  intros Hc. cbn [rstrip]. destruct (rstrip s); [rewrite Hc |]; exact Hc.
Qed.

Lemma rstrip_idempotent (s : string) : rstrip (rstrip s) = rstrip s.
Proof.
  induction s as [|c s IH]; [reflexivity |].
  cbn [rstrip]. destruct (rstrip s) as [|d r] eqn:Hr.
  - destruct (is_space c) eqn:Hc; [reflexivity |].
    cbn [rstrip]. now rewrite Hc.
  - cbn [rstrip] in *. cbn [rstrip]. now rewrite IH.
Qed.

Lemma strip_idempotent (s : string) : strip (strip s) = strip s.
Proof.
  unfold strip.
  rewrite (lstrip_fixed (rstrip (lstrip s))).
  - apply rstrip_idempotent.
  - apply rstrip_head, lstrip_head.
Qed.

(** X13: the URLs read from an input file are exactly the stripped lines
    that are not blank and whose first character is not [#]; each is
    non-empty and carries no surrounding white space; and reading two
    blocks of lines one after the other gives the URLs of the first
    followed by those of the second. *)
Theorem input_file_urls_spec (lines : list string) :
  (forall u,
      In u (Main.input_file_urls lines)
      <-> exists line,
            In line lines /\ u = strip line /\ strip line <> ""
            /\ startswith "#" line = false)
  /\ Forall (fun u => u <> "" /\ strip u = u) (Main.input_file_urls lines)
  /\ List.length (Main.input_file_urls lines) <= List.length lines
  /\ forall more,
       Main.input_file_urls (lines ++ more)
       = Main.input_file_urls lines ++ Main.input_file_urls more.
Proof.
  unfold Main.input_file_urls. split; [| split; [| split]].
  - intros u. rewrite in_map_iff. split.
    + intros [line [Hu Hin]]. apply filter_In in Hin.
      destruct Hin as [Hin Hkeep]. apply andb_true_iff in Hkeep.
      destruct Hkeep as [Hblank Hhash].
      exists line. split; [exact Hin |]. split; [now symmetry |].
      split.
      * apply String.eqb_neq. now destruct (strip line =? "").
      * now destruct (startswith "#" line).
    + intros [line [Hin [-> [Hblank Hhash]]]].
      exists line. split; [reflexivity |].
      apply filter_In. split; [exact Hin |].
      apply String.eqb_neq in Hblank. now rewrite Hblank, Hhash.
  - apply Forall_forall. intros u Hu. apply in_map_iff in Hu.
    destruct Hu as [line [<- Hin]]. apply filter_In in Hin.
    destruct Hin as [_ Hkeep]. apply andb_true_iff in Hkeep.
    destruct Hkeep as [Hblank _]. split.
    + apply String.eqb_neq. now destruct (strip line =? "").
    + apply strip_idempotent.
  - rewrite length_map. apply filter_length_le.
  - intros more. now rewrite filter_app, map_app.
Qed.









Lemma validate_config_relevant_fields (c1 c2 : DownloadConfig) :
  url c1 = url c2 -> platform c1 = platform c2 ->
  output_dir c1 = output_dir c2 -> cookies_file c1 = cookies_file c2 ->
  Downloader.validate_config c1 = Downloader.validate_config c2.
Proof.
  unfold Downloader.validate_config. intros -> -> -> ->. reflexivity.
Qed.

Lemma download_relevant_fields
  (popen : list string -> Downloader.ProcessRun) (c1 c2 : DownloadConfig)
  (w : World) :
  url c1 = url c2 -> platform c1 = platform c2 ->
  download_type c1 = download_type c2 -> output_dir c1 = output_dir c2 ->
  format c1 = format c2 -> cookies_file c1 = cookies_file c2 ->
  concurrent_fragments c1 = concurrent_fragments c2 ->
  retries c1 = retries c2 -> rate_limit c1 = rate_limit c2 ->
  proxy c1 = proxy c2 ->
  Downloader.download popen c1 w = Downloader.download popen c2 w.
Proof.
  intros. unfold Downloader.download, bind, get_fs.
  replace (Downloader.build_yt_dlp_command (fs w) c1)
    with (Downloader.build_yt_dlp_command (fs w) c2); [reflexivity |].
  destruct c1, c2. simpl in *. subst. reflexivity.
Qed.

(** X15: the template built from the command line always has metadata,
    subtitles and thumbnail switched off, whatever the flags say; and what
    a unit does (its result and its effect on the world) is the same for
    two command lines that differ only in [--metadata], [--subtitles],
    [--thumbnail], [--quality] and [--sponsorblock] (and in the URLs, the
    input file and the number of workers, which a unit does not see). *)
Theorem cli_presentation_flags_ignored
  (popen : list string -> Downloader.ProcessRun) (u : string)
  (a1 a2 : Main.Args) (w : World) :
  Main.arg_output_dir a1 = Main.arg_output_dir a2 ->
  Main.arg_type a1 = Main.arg_type a2 ->
  Main.arg_format a1 = Main.arg_format a2 ->
  Main.arg_platform a1 = Main.arg_platform a2 ->
  Main.arg_cookies a1 = Main.arg_cookies a2 ->
  Main.arg_proxy a1 = Main.arg_proxy a2 ->
  Main.arg_rate_limit a1 = Main.arg_rate_limit a2 ->
  Main.arg_retries a1 = Main.arg_retries a2 ->
  Main.arg_concurrent a1 = Main.arg_concurrent a2 ->
  (metadata (Main.make_config a1) = false
   /\ subtitles (Main.make_config a1) = false
   /\ thumbnail (Main.make_config a1) = false)
  /\ BatchDownloader._download_single popen u (Main.make_config a1) w
     = BatchDownloader._download_single popen u (Main.make_config a2) w.
Proof.
  intros Hdir Htype Hformat Hplatform Hcookies Hproxy Hrate Hretries Hfrag.
  split; [repeat split |].
  unfold BatchDownloader._download_single, Main.make_config.
  cbn [url platform download_type output_dir quality format cookies_file
       metadata subtitles thumbnail sponsorblock concurrent_fragments
       retries rate_limit proxy].
  rewrite Hdir, Htype, Hformat, Hplatform, Hcookies, Hproxy, Hrate,
    Hretries, Hfrag.
  unfold bind.
  match goal with
  | |- (let (_, _) := ?m w in _) = _ => destruct (m w) as [[p | e] w1]
  end; [| reflexivity].
  rewrite (validate_config_relevant_fields _
             {| url := u; platform := p;
                download_type := option_map Main.type_map (Main.arg_type a2);
                output_dir := Main.arg_output_dir a2;
                quality := Main.arg_quality a2;
                format := Main.arg_format a2;
                cookies_file := Main.arg_cookies a2;
                metadata := false; subtitles := false; thumbnail := false;
                sponsorblock := Main.arg_sponsorblock a2;
                concurrent_fragments := Main.arg_concurrent a2;
                retries := Main.arg_retries a2;
                rate_limit := Main.arg_rate_limit a2;
                proxy := Main.arg_proxy a2 |})
    by reflexivity.
  match goal with
  | |- (let (_, _) := ?m w1 in _) = _ => destruct (m w1) as [[[] | e] w2]
  end; [| reflexivity].
  apply download_relevant_fields; reflexivity.
Qed.

Lemma cli_presentation_flags_ignored_witness :
  BatchDownloader._download_single
    (fun _ => Downloader.Exits [] 0 (Returned "")) "https://vimeo.com/1"
    (Main.make_config (default_args [])) empty_world
  = BatchDownloader._download_single
      (fun _ => Downloader.Exits [] 0 (Returned "")) "https://vimeo.com/1"
      (Main.make_config
         {| Main.arg_urls := ["x"]; Main.arg_input_file := Some "list.txt";
            Main.arg_output_dir := "downloads"; Main.arg_type := None;
            Main.arg_format := None; Main.arg_quality := "1080p";
            Main.arg_platform := Main.auto_detect; Main.arg_cookies := None;
            Main.arg_proxy := None; Main.arg_rate_limit := None;
            Main.arg_retries := 10; Main.arg_concurrent := 1;
            Main.arg_metadata := true; Main.arg_subtitles := true;
            Main.arg_thumbnail := true; Main.arg_sponsorblock := true;
            Main.arg_workers := 1 |})
      empty_world.
Proof.
  apply cli_presentation_flags_ignored; reflexivity.
Defined.

(* ================================================================== *)
(** * Further properties: the two platform detectors *)
(* ================================================================== *)

(** X16: the detector of [api.py] returns the platform of the first entry
    of the table whose key occurs anywhere in the URL as given (scheme,
    path and query included, upper and lower case distinguished), and
    UNKNOWN exactly when no key occurs in it. *)
Theorem api_detect_platform_first_match (url0 : string) :
  (forall before key p after,
      Downloader.SUPPORTED_PLATFORMS = before ++ (key, p) :: after ->
      occurs key url0 ->
      (forall k q, In (k, q) before -> ~ occurs k url0) ->
      Api.detect_platform url0 = p)
  /\ (Api.detect_platform url0 = UNKNOWN
      <-> forall k q,
            In (k, q) Downloader.SUPPORTED_PLATFORMS -> ~ occurs k url0).
Proof.
  unfold Api.detect_platform. split.
  - intros before key p after -> Hkey Hbefore.
    now apply scan_platforms_first.
  - split; [| apply scan_platforms_none].
    intros Hunknown k q Hin Hocc. apply contains_spec in Hocc.
    revert Hunknown.
    unfold Downloader.SUPPORTED_PLATFORMS in *. cbn [scan_platforms].
    cbn [In] in Hin.
    repeat match type of Hin with
    | _ \/ _ => destruct Hin as [Hin | Hin]
    end; try contradiction; injection Hin as <- <-;
    repeat match goal with
    | |- (if contains ?key url0 then _ else _) = UNKNOWN -> _ =>
        destruct (contains key url0) eqn:?; [discriminate |]
    end; congruence.
Qed.

Lemma api_detect_platform_first_match_witness :
  Api.detect_platform "https://example.org/?next=fb.watch/abc" = FACEBOOK.
Proof.
  apply (proj1 (api_detect_platform_first_match
                  "https://example.org/?next=fb.watch/abc"))
    with (before := firstn 7 Downloader.SUPPORTED_PLATFORMS)
         (key := "fb.watch")
         (after := skipn 8 Downloader.SUPPORTED_PLATFORMS).
  - reflexivity.
  - exists "https://example.org/?next=", "/abc". reflexivity.
  - intros k q Hin Hocc. apply contains_spec in Hocc.
    cbn in Hin.
    repeat match type of Hin with
    | _ \/ _ => destruct Hin as [Hin | Hin]
    end; try contradiction; injection Hin as <- <-;
    vm_compute in Hocc; discriminate Hocc.
Defined.

Lemma plain_char_facts (c : ascii) :
  plain_char c = true ->
  Urllib.is_unsafe c = false /\ Urllib.is_delim c = false
  /\ Ascii.eqb c "[" = false /\ Ascii.eqb c "]" = false
  /\ lower_char c = c.
Proof.
  destruct c as [[] [] [] [] [] [] [] []]; vm_compute; intros H;
    try discriminate H; repeat split.
Qed.

Lemma remove_unsafe_append (a b : string) :
  Urllib.remove_unsafe (a +++ b)
  = Urllib.remove_unsafe a +++ Urllib.remove_unsafe b.
Proof.
  induction a as [|c a IH]; [reflexivity |].
  cbn [String.append Urllib.remove_unsafe].
  destruct (Urllib.is_unsafe c); [exact IH |].
  cbn [String.append]. now rewrite IH.
Qed.

Lemma plain_host_facts (host : string) :
  plain_host host = true ->
  Urllib.remove_unsafe host = host
  /\ lower host = host
  /\ has_char "[" host = false
  /\ has_char "]" host = false
  /\ forall tail,
       (tail = "" \/ exists t, tail = String "/" t) ->
       Urllib.until_delim (host +++ tail) = host.
Proof.
  induction host as [|c host IH]; intros Hplain.
  - repeat split. intros tail [-> | [t ->]]; reflexivity.
  - cbn [plain_host] in Hplain. apply andb_true_iff in Hplain.
    destruct Hplain as [Hc Hhost].
    destruct (plain_char_facts c Hc) as [Hu [Hd [Hl [Hr Hlow]]]].
    destruct (IH Hhost) as [IH1 [IH2 [IH3 [IH4 IH5]]]].
    cbn [Urllib.remove_unsafe lower has_char String.append
           Urllib.until_delim].
    rewrite Hu, Hd, Hl, Hr, Hlow, IH1, IH2, IH3, IH4.
    repeat split. intros tail Htail. now rewrite (IH5 tail Htail).
Qed.

Lemma append_empty_r (s : string) : s +++ "" = s.
Proof. induction s as [|c s IH]; simpl; [reflexivity | now rewrite IH]. Qed.

Lemma startswith_split (key a : string) (c : ascii) (b : string) :
  has_char c key = false ->
  startswith key (a +++ String c b) = startswith key a.
Proof.
  revert a. induction key as [|k key IH]; intros a Hc; [reflexivity |].
  cbn [has_char] in Hc. apply orb_false_iff in Hc. destruct Hc as [Hk Hkey].
  destruct a as [|x a]; cbn [String.append startswith].
  - rewrite Hk. reflexivity.
  - now rewrite IH.
Qed.

(** A key that does not contain a character occurs in a text around that
    character only on one of its two sides. *)
Lemma contains_split (key a : string) (c : ascii) (b : string) :
  has_char c key = false ->
  contains key (a +++ String c b) = contains key a || contains key b.
Proof.
  intros Hc. induction a as [|x a IH].
  - pose proof (startswith_split key "" c b Hc) as Hs.
    cbn [String.append] in Hs. cbn [String.append contains].
    now rewrite Hs, orb_false_r.
  - pose proof (startswith_split key (String x a) c b Hc) as Hs.
    cbn [String.append] in Hs. cbn [String.append contains].
    now rewrite Hs, IH, orb_assoc.
Qed.

(** What is used of the keys of the table: none is empty, contains a slash
    or occurs in the scheme of a web URL. *)
Lemma table_keys_plain (k : string) (q : Platform) :
  In (k, q) Downloader.SUPPORTED_PLATFORMS ->
  has_char "/" k = false /\ contains k "" = false
  /\ contains k "https:" = false /\ contains k "http:" = false.
Proof.
  intros Hin. cbn in Hin.
  repeat match type of Hin with
  | _ \/ _ => destruct Hin as [Hin | Hin]
  end; try contradiction; injection Hin as <- <-; repeat split.
Qed.

Lemma contains_web_url (scheme host rest : string) (k : string)
  (q : Platform) :
  In (k, q) Downloader.SUPPORTED_PLATFORMS ->
  contains k scheme = false ->
  (rest = "" \/ exists t, rest = String "/" t) ->
  contains k rest = false ->
  contains k (scheme +++ "//" +++ host +++ rest) = contains k host.
Proof.
  intros Hin Hscheme Hrest Hnone.
  destruct (table_keys_plain k q Hin) as [Hslash [Hempty _]].
  change (scheme +++ "//" +++ host +++ rest)
    with (scheme +++ String "/" ("" +++ String "/" (host +++ rest))).
  rewrite !(contains_split k _ "/" _ Hslash), Hscheme, Hempty.
  cbn [orb]. destruct Hrest as [-> | [t ->]].
  - now rewrite append_empty_r.
  - rewrite (contains_split k host "/" t Hslash).
    change (String "/" t) with ("" +++ String "/" t) in Hnone.
    rewrite (contains_split k "" "/" t Hslash), Hempty in Hnone.
    cbn [orb] in Hnone. rewrite Hnone. apply orb_false_r.
Qed.

Lemma netloc_web_url (host rest : string) :
  plain_host host = true ->
  (rest = "" \/ exists t, rest = String "/" t) ->
  Urllib.urlparse_netloc ("https://" +++ host +++ rest) = Returned host
  /\ Urllib.urlparse_netloc ("http://" +++ host +++ rest) = Returned host.
Proof.
  intros Hplain Hrest.
  destruct (plain_host_facts host Hplain) as [Hsafe [_ [Hl [Hr Hdelim]]]].
  assert (Htail : Urllib.remove_unsafe rest = ""
                  \/ exists t, Urllib.remove_unsafe rest = String "/" t).
  { destruct Hrest as [-> | [t ->]]; [now left |].
    right. eexists. reflexivity. }
  assert (Hparse : forall scheme,
            (forall x, Urllib.lstrip_c0 (scheme +++ x) = scheme +++ x) ->
            Urllib.remove_unsafe scheme = scheme ->
            (forall y, Urllib.strip_scheme (scheme +++ y) = y) ->
            Urllib.urlparse_netloc
              (scheme +++ "//" +++ host +++ rest) = Returned host).
  { intros scheme Hstrip Hclean Hscheme. unfold Urllib.urlparse_netloc.
    rewrite Hstrip, !remove_unsafe_append, Hclean, Hsafe.
    change (Urllib.remove_unsafe "//") with "//".
    rewrite Hscheme. cbn [String.append].
    rewrite (Hdelim _ Htail), Hl, Hr. reflexivity. }
  split.
  - apply (Hparse "https:"); reflexivity.
  - apply (Hparse "http:"); reflexivity.
Qed.

(** X17: on a web URL made of [http://] or [https://], a host written in
    lower-case letters, digits, dots and hyphens, and nothing more or a
    path (with query) that names no supported domain, the detector of
    [api.py] and the core detector return the same platform. *)
Theorem detectors_agree_on_plain_urls (host rest : string) :
  plain_host host = true ->
  (rest = "" \/ exists t, rest = String "/" t) ->
  (forall k q,
      In (k, q) Downloader.SUPPORTED_PLATFORMS -> contains k rest = false) ->
  Downloader.detect_platform ("https://" +++ host +++ rest)
  = Returned (Api.detect_platform ("https://" +++ host +++ rest))
  /\ Downloader.detect_platform ("http://" +++ host +++ rest)
     = Returned (Api.detect_platform ("http://" +++ host +++ rest)).
Proof.
  intros Hplain Hrest Hnone.
  destruct (netloc_web_url host rest Hplain Hrest) as [Hs Hp].
  destruct (plain_host_facts host Hplain) as [_ [Hlow _]].
  split.
  - apply (detectors_agree_when_keys_agree _ host Hs).
    intros k q Hin. rewrite Hlow.
    destruct (table_keys_plain k q Hin) as [_ [_ [Hscheme _]]].
    exact (contains_web_url "https:" host rest k q Hin Hscheme Hrest
             (Hnone k q Hin)).
  - apply (detectors_agree_when_keys_agree _ host Hp).
    intros k q Hin. rewrite Hlow.
    destruct (table_keys_plain k q Hin) as [_ [_ [_ Hscheme]]].
    exact (contains_web_url "http:" host rest k q Hin Hscheme Hrest
             (Hnone k q Hin)).
Qed.

Lemma detectors_agree_on_plain_urls_witness :
  Downloader.detect_platform "https://www.tiktok.com/@user/video/1?x=2"
  = Returned (Api.detect_platform "https://www.tiktok.com/@user/video/1?x=2").
Proof.
  apply (proj1 (detectors_agree_on_plain_urls "www.tiktok.com"
                  "/@user/video/1?x=2" eq_refl
                  (or_intror (ex_intro _ "@user/video/1?x=2" eq_refl))
                  ltac:(intros k q Hin; cbn in Hin;
                        repeat match type of Hin with
                        | _ \/ _ => destruct Hin as [Hin | Hin]
                        end; try contradiction; injection Hin as <- <-;
                        reflexivity))).
Defined.

(* ================================================================== *)
(** * Further properties: the endpoints *)
(* ================================================================== *)

Example fetch_info_example :
  Endpoints.fetch_info (Returned (Endpoints.Text "https://vimeo.com/1"))
    (fun _ => Returned
       {| Endpoints.i_title := Some "clip"; Endpoints.i_thumbnail := None;
          Endpoints.i_duration := Some 12%Z;
          Endpoints.i_formats :=
            [ {| Endpoints.f_format_id := None;
                 Endpoints.f_height := Some 360%Z;
                 Endpoints.f_ext := Some "mp4";
                 Endpoints.f_filesize := None;
                 Endpoints.f_filesize_approx := None |};
              {| Endpoints.f_format_id := Some (Some "22");
                 Endpoints.f_height := Some 720%Z;
                 Endpoints.f_ext := Some "mp4";
                 Endpoints.f_filesize := Some 0%Z;
                 Endpoints.f_filesize_approx := Some 900%Z |};
              {| Endpoints.f_format_id := Some None;
                 Endpoints.f_height := Some 1080%Z;
                 Endpoints.f_ext := None;
                 Endpoints.f_filesize := None;
                 Endpoints.f_filesize_approx := Some 0%Z |} ] |})
  = (200%Z,
     Endpoints.InfoBody (Some "clip") None (Some 12%Z)
       [ {| Endpoints.format_id := Some "22";
            Endpoints.resolution := Some 720%Z;
            Endpoints.ext := Some "mp4";
            Endpoints.filesize := Some 900%Z |};
         {| Endpoints.format_id := None;
            Endpoints.resolution := Some 1080%Z;
            Endpoints.ext := None;
            Endpoints.filesize := Some 0%Z |} ]).
Proof. reflexivity. Qed.

(** A download that succeeds; a URL without a supported domain; a format
    given as a number for a supported URL: the join of the command raises,
    nothing is logged and the temporary directory stays. *)
Example download_video_examples :
  fst (Endpoints.download_video
         (Returned (Endpoints.Text "https://vimeo.com/1", Endpoints.Text "22"))
         "/tmp/x"
         (fun _ => Downloader.Exits [] 0 (Returned ""))
         ["/tmp/x/Video/clip.mp4"] ["/tmp/x/Video"; "/tmp/x/Video/clip.mp4"]
         empty_world)
  = Returned (200%Z, Endpoints.FileBody "/tmp/x/Video/clip.mp4")
  /\ fst (Endpoints.download_video
            (Returned (Endpoints.Text "https://example.org/1",
                       Endpoints.Text "22")) "/tmp/x"
            (fun _ => Downloader.Exits [] 0 (Returned "")) [] []
            empty_world)
     = Returned (500%Z,
                 Endpoints.ErrorBody "Unsupported URL: https://example.org/1")
  /\ Endpoints.download_video
       (Returned (Endpoints.Text "https://vimeo.com/1",
                  Endpoints.Other true
                    (TypeError
                       "sequence item 13: expected str instance, int found")))
       "/tmp/x"
       (fun _ => Downloader.Exits [] 0 (Returned "")) [] [] empty_world
     = (Returned
          (500%Z,
           Endpoints.ErrorBody
             "sequence item 13: expected str instance, int found"),
        snd (Endpoints.mkdtemp "/tmp/x" empty_world)).
Proof. repeat split; reflexivity. Qed.

(** X18: the format list of [/api/info].  When the selection succeeds, its
    entries are the formats whose height is 480, 720 or 1080, in the order
    of the metadata, each with the identifier (null when the format has a
    null one), height and extension of its format, and as size the file
    size or, failing that, the approximate one; the selection fails exactly
    when one of those formats has no identifier key (formats of other
    heights may lack it). *)
Theorem select_formats_spec (formats : list Endpoints.Format) :
  (forall entries,
      Endpoints.select_formats formats = Some entries ->
      map (fun e => (Some (Endpoints.format_id e), Endpoints.resolution e,
                     Endpoints.ext e, Endpoints.filesize e)) entries
      = map (fun f => (Endpoints.f_format_id f, Endpoints.f_height f,
                       Endpoints.f_ext f,
                       Endpoints.or_else (Endpoints.f_filesize f)
                         (Endpoints.f_filesize_approx f)))
          (filter (fun f => Endpoints.height_listed (Endpoints.f_height f))
             formats)
      /\ Forall (fun e => Endpoints.resolution e = Some 480%Z
                          \/ Endpoints.resolution e = Some 720%Z
                          \/ Endpoints.resolution e = Some 1080%Z) entries)
  /\ (Endpoints.select_formats formats = None
      <-> exists f,
            In f formats
            /\ Endpoints.height_listed (Endpoints.f_height f) = true
            /\ Endpoints.f_format_id f = None).
Proof.
  induction formats as [|f formats [IHsel IHfail]].
  - split.
    + intros entries H. injection H as <-. split; [reflexivity | constructor].
    + split; [discriminate | intros [f [[] _]]].
  - cbn [Endpoints.select_formats filter].
    destruct (Endpoints.height_listed (Endpoints.f_height f)) eqn:Hh.
    + destruct (Endpoints.f_format_id f) as [id|] eqn:Hid.
      * destruct (Endpoints.select_formats formats) as [rest|].
        -- split.
           ++ intros entries H. injection H as <-.
              destruct (IHsel rest eq_refl) as [Hmap Hall].
              split.
              ** cbn [map Endpoints.format_id Endpoints.resolution
                        Endpoints.ext Endpoints.filesize].
                 now rewrite Hmap, Hid.
              ** constructor; [| exact Hall].
                 cbn [Endpoints.resolution].
                 unfold Endpoints.height_listed in Hh.
                 destruct (Endpoints.f_height f) as [n|]; [| discriminate].
                 apply orb_true_iff in Hh. destruct Hh as [Hh | Hh].
                 --- apply orb_true_iff in Hh. destruct Hh as [Hh | Hh];
                       apply Z.eqb_eq in Hh; subst; auto.
                 --- apply Z.eqb_eq in Hh. subst. auto.
           ++ split; [discriminate |].
              intros [g [[<- | Hin] [Hg Hnone]]]; [congruence |].
              assert (Hex : exists g,
                        In g formats
                        /\ Endpoints.height_listed (Endpoints.f_height g)
                           = true
                        /\ Endpoints.f_format_id g = None)
                by (exists g; auto).
              apply IHfail in Hex. discriminate Hex.
        -- split; [discriminate |]. split; [| reflexivity].
           intros _. destruct (proj1 IHfail eq_refl) as [g [Hin Hg]].
           exists g. split; [now right | exact Hg].
      * split; [discriminate |]. split; [| reflexivity].
        intros _. exists f. split; [now left | auto].
    + split; [exact IHsel |]. rewrite IHfail. split.
      * intros [g [Hin Hg]]. exists g. split; [now right | exact Hg].
      * intros [g [[<- | Hin] [Hg Hnone]]]; [congruence |].
        exists g. auto.
Qed.

Lemma select_formats_spec_witness :
  Endpoints.select_formats
    [ {| Endpoints.f_format_id := Some None;
         Endpoints.f_height := Some 720%Z;
         Endpoints.f_ext := Some "mp4"; Endpoints.f_filesize := None;
         Endpoints.f_filesize_approx := None |};
      {| Endpoints.f_format_id := None; Endpoints.f_height := Some 1080%Z;
         Endpoints.f_ext := Some "mp4"; Endpoints.f_filesize := None;
         Endpoints.f_filesize_approx := None |} ]
  = None.
Proof.
  apply (proj2 (select_formats_spec _)).
  eexists. split; [right; left; reflexivity |]. split; reflexivity.
Defined.

(** X19: [/api/info] answers 400 exactly when the URL of the request is
    absent, null, empty or otherwise false, and then without calling the
    engine; it answers 200 exactly when the engine returns metadata in
    which every format of a listed height has an identifier key (its value
    may be null); every other request is answered 500. *)
Theorem fetch_info_status (data : result Endpoints.Field)
  (extract_info : Endpoints.Field -> result Endpoints.Info) :
  let status := fst (Endpoints.fetch_info data extract_info) in
  (status = 200%Z \/ status = 400%Z \/ status = 500%Z)
  /\ (status = 400%Z
      <-> exists url0, data = Returned url0 /\ Endpoints.missing url0 = true)
  /\ (forall url0 other,
        data = Returned url0 -> Endpoints.missing url0 = true ->
        Endpoints.fetch_info data other
        = (400%Z, Endpoints.ErrorBody "Missing URL"))
  /\ (status = 200%Z
      <-> exists url0 info entries,
            data = Returned url0 /\ Endpoints.missing url0 = false
            /\ extract_info url0 = Returned info
            /\ Endpoints.select_formats (Endpoints.i_formats info)
               = Some entries).
Proof.
  unfold Endpoints.fetch_info. cbv zeta.
  destruct data as [url0 | e].
  - destruct (Endpoints.missing url0) eqn:Hmissing.
    + cbn [fst]. split; [auto |]. split.
      * split; [intros _; now exists url0 | reflexivity].
      * split.
        -- intros u other Hu Hm. reflexivity.
        -- split; [discriminate |].
           intros [u [info [entries [Hu [Hm _]]]]].
           injection Hu as <-. congruence.
    + destruct (extract_info url0) as [info | e] eqn:Hinfo.
      * destruct (Endpoints.select_formats (Endpoints.i_formats info))
          as [entries|] eqn:Hsel; cbn [fst].
        -- split; [auto |]. split.
           ++ split; [discriminate |].
              intros [u [Hu Hm]]. injection Hu as <-. congruence.
           ++ split.
              ** intros u other Hu Hm. injection Hu as <-. congruence.
              ** split; [| reflexivity].
                 intros _. exists url0, info, entries. auto.
        -- split; [auto |]. split.
           ++ split; [discriminate |].
              intros [u [Hu Hm]]. injection Hu as <-. congruence.
           ++ split.
              ** intros u other Hu Hm. injection Hu as <-. congruence.
              ** split; [discriminate |].
                 intros [u [i [en [Hu [_ [Hi Hs]]]]]].
                 injection Hu as <-. rewrite Hinfo in Hi.
                 injection Hi as <-. congruence.
      * cbn [fst]. split; [auto |]. split.
        -- split; [discriminate |].
           intros [u [Hu Hm]]. injection Hu as <-. congruence.
        -- split.
           ++ intros u other Hu Hm. injection Hu as <-. congruence.
           ++ split; [discriminate |].
              intros [u [i [en [Hu [_ [Hi _]]]]]].
              injection Hu as <-. congruence.
  - cbn [fst]. split; [auto |]. split.
    + split; [discriminate | intros [u [Hu _]]; discriminate Hu].
    + split; [intros u other Hu; discriminate Hu |].
      split; [discriminate |].
      intros [u [i [en [Hu _]]]]. discriminate Hu.
Qed.

(** [download] returns a boolean and leaves the file system as it was; the
    boolean is true exactly when the process was read to the end, waited
    for, and left the status zero. *)
Lemma download_returns (popen : list string -> Downloader.ProcessRun)
  (config : DownloadConfig) (w : World) :
  exists (b : bool) (w' : World),
    Downloader.download popen config w = (Returned b, w')
    /\ fs w' = fs w
    /\ (b = true
        <-> exists lines stderr,
              popen (Downloader.build_yt_dlp_command (fs w) config)
              = Downloader.Exits lines 0 stderr).
Proof.
  unfold Downloader.download, bind, get_fs, try_except.
  cbn [logger fs log].
  set (cmd := Downloader.build_yt_dlp_command (fs w) config).
  set (w1 := {| fs := fs w; log := _ |}).
  destruct (popen cmd) as [e | lines e exited | lines returncode stderr] eqn:Hrun.
  - exists false. unfold raise.
    destruct e; (eexists; split; [reflexivity |]; split; [reflexivity |];
                 split; [discriminate | intros [l [s Hx]]; discriminate]).
  - destruct (log_progress_returns lines w1) as [w2 [Hlog Hfs]].
    rewrite Hlog. exists false. unfold raise.
    destruct e; (eexists; split; [reflexivity |]; split; [exact Hfs |];
                 split; [discriminate | intros [l [s Hx]]; discriminate]).
  - destruct (log_progress_returns lines w1) as [w2 [Hlog Hfs]].
    rewrite Hlog. destruct (returncode =? 0)%Z eqn:Hrc; cbn [negb].
    + apply Z.eqb_eq in Hrc. subst returncode.
      exists true, w2. split; [reflexivity |]. split; [exact Hfs |].
      split; [intros _; now exists lines, stderr | reflexivity].
    + apply Z.eqb_neq in Hrc. exists false. unfold raise.
      assert (Hno : false = true <->
                    exists l s,
                      Downloader.Exits lines returncode stderr
                      = Downloader.Exits l 0 s).
      { split; [discriminate |].
        intros [l [s Hx]]. injection Hx as _ Hz _. now contradiction Hrc. }
      destruct stderr as [s | e]; [| destruct e];
        (eexists; split; [reflexivity |]; split; [exact Hfs | exact Hno]).
Qed.

Lemma startswith_refl_append (p s : string) : startswith p (p +++ s) = true.
Proof. apply startswith_spec. now exists s. Qed.




(** X21: a request that [/api/download] accepts is run with its format
    verbatim: whatever the platform and the file system, the command built
    from its configuration has the requested format as [-f] value, and its
    output template lies in the folder [Video] of the temporary
    directory. *)
Theorem download_video_command (fs0 : FS) (url0 format_code : string)
  (temp_dir : Path) :
  format_code <> "" ->
  option_value "-f"
    (Downloader.build_yt_dlp_command fs0
       (Endpoints.download_config url0 format_code temp_dir))
  = Some format_code
  /\ exists pattern,
       option_value "-o"
         (Downloader.build_yt_dlp_command fs0
            (Endpoints.download_config url0 format_code temp_dir))
       = Some ((if (temp_dir =? "") || endswith_char "/" temp_dir
                then temp_dir else temp_dir +++ "/")
               +++ "Video/" +++ pattern).
Proof.
  intros Hf. split.
  - rewrite option_value_f. unfold if_truthy.
    cbn [format Endpoints.download_config].
    apply String.eqb_neq in Hf. now rewrite Hf.
  - assert (Ho : forall f c,
      option_value "-o" (Downloader.build_yt_dlp_command f c)
      = Some (Downloader.get_output_template c)).
    { intros f c. rewrite build_shape, command_options_shape.
      rewrite <- !app_assoc. cbn [app].
      do 4 (rewrite option_value_skip by discriminate).
      rewrite option_value_skip by (apply str_int_neq; reflexivity).
      rewrite option_value_skip by discriminate.
      rewrite option_value_skip by (apply str_int_neq; reflexivity).
      do 3 (rewrite option_value_skip by discriminate).
      apply option_value_hit. }
    rewrite Ho. unfold Downloader.get_output_template.
    cbn [download_type Endpoints.download_config is_AUDIO output_dir
         platform].
    eexists. f_equal.
    rewrite os_path_join_relative.
    + reflexivity.
    + reflexivity.
    + reflexivity.
    + destruct (Api.detect_platform url0); reflexivity.
Qed.

Lemma download_video_command_witness :
  option_value "-f"
    (Downloader.build_yt_dlp_command no_files
       (Endpoints.download_config "https://vimeo.com/1" "22" "/tmp/x"))
  = Some "22".
Proof.
  apply (download_video_command no_files "https://vimeo.com/1" "22" "/tmp/x").
  discriminate.
Defined.

(* ================================================================== *)
(** * Further properties: what the outcome of a unit means *)
(* ================================================================== *)

Lemma validate_config_log (config : DownloadConfig) (w : World) :
  log (snd (Downloader.validate_config config w)) = log w.
Proof.
  unfold Downloader.validate_config.
  destruct (url config =? ""); [reflexivity |].
  destruct (Platform_eqb (platform config) UNKNOWN); [reflexivity |].
  unfold bind, get_fs.
  destruct (path_exists (fs w) (output_dir config)); cbn [negb].
  - unfold ret at 1.
    destruct (cookies_file config) as [p|]; [| reflexivity].
    destruct (path_exists (fs w) p); reflexivity.
  - destruct (mkdir_parents_cases (output_dir config) w)
      as [[m Hfail] | [w1 [Hok [_ [_ [_ Hlog]]]]]].
    + rewrite Hfail. reflexivity.
    + rewrite Hok.
      destruct (cookies_file config) as [p|]; [| exact Hlog].
      destruct (path_exists (fs w1) p); exact Hlog.
Qed.

(** X22: what the outcome of a unit means.  A unit returns true only if
    its URL is non-empty, the output directory exists afterwards, and a
    process started with a command that begins with the program and ends
    with this URL exited with status zero.  A unit raises only before any
    process is started: the log is then as it was. *)
Theorem unit_outcome_meaning
  (popen : list string -> Downloader.ProcessRun) (u : string)
  (config : DownloadConfig) (w w' : World) :
  (BatchDownloader._download_single popen u config w = (Returned true, w') ->
   u <> ""
   /\ path_exists (fs w') (output_dir config) = true
   /\ exists cmd lines stderr,
        popen cmd = Downloader.Exits lines 0 stderr
        /\ hd_error cmd = Some "yt-dlp"
        /\ last cmd "" = u)
  /\ (forall e,
        BatchDownloader._download_single popen u config w = (Raised e, w') ->
        log w' = log w).
Proof.
  unfold BatchDownloader._download_single, bind.
  set (resolved :=
         (if negb (Platform_eqb (platform config) UNKNOWN)
          then ret (platform config)
          else match Downloader.detect_platform u with
               | Returned p => ret p
               | Raised e => raise e
               end) w).
  assert (Hresolved : (exists p, resolved = (Returned p, w))
                      \/ exists e, resolved = (Raised e, w)).
  { subst resolved.
    destruct (negb (Platform_eqb (platform config) UNKNOWN)).
    - left. eexists. reflexivity.
    - destruct (Downloader.detect_platform u) as [p | e].
      + left. now exists p.
      + right. now exists e. }
  destruct Hresolved as [[p ->] | [e ->]].
  - match goal with
    | |- context [Downloader.validate_config ?c w] => set (derived := c)
    end.
    pose proof (validate_config_log derived w) as Hlog.
    destruct (Downloader.validate_config derived w) as [[[] | e] w1] eqn:Hv.
    + destruct (validate_config_returned derived w w1 Hv)
        as [Hu [_ [Hdir _]]].
      destruct (download_returns popen derived w1)
        as [b [w2 [Hrun [Hfs Hzero]]]].
      rewrite Hrun. split.
      * intros Hres. injection Hres as -> ->.
        split; [exact Hu |]. split; [now rewrite Hfs |].
        destruct (proj1 Hzero eq_refl) as [lines [stderr Hx]].
        exists (Downloader.build_yt_dlp_command (fs w1) derived),
               lines, stderr.
        split; [exact Hx |]. split.
        -- rewrite build_shape, command_options_shape. reflexivity.
        -- apply build_last.
      * intros e Hres. discriminate Hres.
    + split; [discriminate |].
      intros e' Hres. injection Hres as _ <-. exact Hlog.
  - split; [discriminate |].
    intros e' Hres. now injection Hres as _ <-.
Qed.

Lemma unit_outcome_meaning_witness :
  exists cmd lines stderr,
    (fun _ => Downloader.Exits [] 0 (Returned "")) cmd
    = Downloader.Exits lines 0 stderr
    /\ hd_error cmd = Some "yt-dlp"
    /\ last cmd "" = "https://vimeo.com/1".
Proof.
  destruct (unit_outcome_meaning
              (fun _ => Downloader.Exits [] 0 (Returned ""))
              "https://vimeo.com/1" generic_template empty_world
              (snd (BatchDownloader._download_single
                      (fun _ => Downloader.Exits [] 0 (Returned ""))
                      "https://vimeo.com/1" generic_template empty_world)))
    as [Htrue _].
  destruct (Htrue eq_refl) as [_ [_ Hcmd]].
  exact Hcmd.
Defined.

(** X23: the core detector looks at the host only.  For a web URL with a
    host written in lower-case letters, digits, dots and hyphens, the
    platform is the one the table gives for the host, whatever path and
    query follow: a supported domain named only there changes nothing. *)
Theorem core_detection_ignores_path (host rest : string) :
  plain_host host = true ->
  (rest = "" \/ exists t, rest = String "/" t) ->
  Downloader.detect_platform ("https://" +++ host +++ rest)
  = Returned (scan_platforms host Downloader.SUPPORTED_PLATFORMS)
  /\ Downloader.detect_platform ("http://" +++ host +++ rest)
     = Downloader.detect_platform ("https://" +++ host)
  /\ Downloader.detect_platform ("https://" +++ host +++ rest)
     = Downloader.detect_platform ("https://" +++ host).
Proof.
  intros Hplain Hrest.
  destruct (netloc_web_url host rest Hplain Hrest) as [Hs Hp].
  destruct (netloc_web_url host "" Hplain (or_introl eq_refl)) as [Hs0 _].
  rewrite append_empty_r in Hs0.
  destruct (plain_host_facts host Hplain) as [_ [Hlow _]].
  unfold Downloader.detect_platform.
  rewrite Hs, Hp, Hs0, Hlow. repeat split.
Qed.

Lemma core_detection_ignores_path_witness :
  Downloader.detect_platform "https://example.org/watch?next=youtube.com"
  = Returned UNKNOWN.
Proof.
  apply (proj1 (core_detection_ignores_path "example.org"
                  "/watch?next=youtube.com" eq_refl
                  (or_intror (ex_intro _ "watch?next=youtube.com" eq_refl)))).
Defined.
